(** * Provider gateways of promptcraft-library

    A shallow embedding of the two leaf modules that talk to the remote
    model provider,

      - [app/providers/openrouter_openai.py]  (chat completion gateway)
      - [app/embeddings/providers.py]         (embedding gateway)

    together with the small part of Python's dynamic semantics they rely on:
    JSON-like values, truthiness, [dict.get], subscripting, the [in]
    operator, name lookup in a module's global scope, exceptions and
    [try]/[except].  The openai SDK, the clock and the textual form of
    floats and quoted strings are outside the repository and are collected
    in a [runtime] record. *)

From Stdlib Require Import String Ascii List ZArith QArith Bool Lia.
From Stdlib Require Import DecimalString.
Import ListNotations.

Set Warnings "-register-all".

Open Scope list_scope.
Open Scope string_scope.

(** ** Python values *)

(** The values that travel between the gateways and the provider are what
    [json] decoding produces. *)
Inductive pyval : Type :=
| PNone
| PBool (b : bool)
| PInt (z : Z)
| PFloat (q : Q)
| PStr (s : string)
| PList (l : list pyval)
| PDict (d : list (string * pyval)).

Definition pydict : Type := list (string * pyval).

Definition type_name (v : pyval) : string :=
  match v with
  | PNone => "NoneType"
  | PBool _ => "bool"
  | PInt _ => "int"
  | PFloat _ => "float"
  | PStr _ => "str"
  | PList _ => "list"
  | PDict _ => "dict"
  end.

(** [bool(v)] *)
Definition truthy (v : pyval) : bool :=
  match v with
  | PNone => false
  | PBool b => b
  | PInt z => negb (Z.eqb z 0)
  | PFloat q => negb (Z.eqb (Qnum q) 0)
  | PStr s => negb (String.eqb s "")
  | PList l => match l with [] => false | _ :: _ => true end
  | PDict d => match d with [] => false | _ :: _ => true end
  end.

Definition is_dict (v : pyval) : bool :=
  match v with PDict _ => true | _ => false end.

Definition is_str (v : pyval) : bool :=
  match v with PStr _ => true | _ => false end.

(** ** Dictionaries

    A [dict] keeps its keys in insertion order and holds each key once. *)

Fixpoint dict_get {V : Type} (k : string) (d : list (string * V)) : option V :=
  match d with
  | [] => None
  | (k', v) :: rest => if String.eqb k k' then Some v else dict_get k rest
  end.

Definition dict_has {V : Type} (k : string) (d : list (string * V)) : bool :=
  match dict_get k d with Some _ => true | None => false end.

(** [d[k] = v] *)
Fixpoint dict_set {V : Type} (k : string) (v : V) (d : list (string * V))
  : list (string * V) :=
  match d with
  | [] => [(k, v)]
  | (k', v') :: rest =>
      if String.eqb k k' then (k, v) :: rest else (k', v') :: dict_set k v rest
  end.

(** [d.update(extra)] *)
Definition dict_update {V : Type} (d extra : list (string * V))
  : list (string * V) :=
  fold_left (fun acc kv => dict_set (fst kv) (snd kv) acc) extra d.

(** ** Exceptions

    A raised object is described by its class, the classes between it and
    [Exception], and [str(e)].  Every value of this type is an instance of
    [Exception]; the interpreter's exit signals, which derive from
    [BaseException] only, are not failures of a call and are not modelled. *)
Record exn : Type := mkExn {
  exn_class : string;
  exn_bases : list string;
  exn_msg : string
}.

Definition isinstance (e : exn) (cls : string) : bool :=
  String.eqb cls "Exception" || String.eqb cls "BaseException"
  || String.eqb cls (exn_class e)
  || existsb (String.eqb cls) (exn_bases e).

Definition NameError (name : string) : exn :=
  mkExn "NameError" [] ("name '" ++ name ++ "' is not defined").

Definition AttributeError (ty attr : string) : exn :=
  mkExn "AttributeError" []
        ("'" ++ ty ++ "' object has no attribute '" ++ attr ++ "'").

Definition TypeError (msg : string) : exn := mkExn "TypeError" [] msg.

Definition KeyError (key_repr : string) : exn :=
  mkExn "KeyError" ["LookupError"] key_repr.

Definition IndexError (msg : string) : exn :=
  mkExn "IndexError" ["LookupError"] msg.

(** ** Computations that may raise and that leave a trace *)

Inductive outcome (A : Type) : Type :=
| Return (a : A)
| Raise (e : exn).
Arguments Return {A} a.
Arguments Raise {A} e.

Definition obind {A B : Type} (c : outcome A) (k : A -> outcome B) : outcome B :=
  match c with
  | Return a => k a
  | Raise e => Raise e
  end.

Declare Scope py_scope.
Delimit Scope py_scope with py.
Notation "x <- c ;; k" := (obind c (fun x => k))
  (at level 61, c at next level, right associativity) : py_scope.
Open Scope py_scope.

(** ** Operations on values *)

(** [obj.get(k, default)]: only a [dict] has the method. *)
Definition py_get (obj : pyval) (k : string) (default : pyval) : outcome pyval :=
  match obj with
  | PDict d => Return (match dict_get k d with Some v => v | None => default end)
  | _ => Raise (AttributeError (type_name obj) "get")
  end.

(** [needle in haystack] on strings. *)
Fixpoint is_substring (needle hay : string) : bool :=
  String.prefix needle hay
  || match hay with
     | EmptyString => false
     | String _ rest => is_substring needle rest
     end.

(** [k in obj] for a string [k]: key of a dict, element of a list,
    substring of a string; other values are not containers. *)
Definition py_in (k : string) (obj : pyval) : outcome bool :=
  match obj with
  | PDict d => Return (dict_has k d)
  | PList l =>
      Return (existsb (fun v => match v with
                                | PStr s => String.eqb s k
                                | _ => false
                                end) l)
  | PStr s => Return (is_substring k s)
  | _ => Raise (TypeError ("argument of type '" ++ type_name obj
                           ++ "' is not iterable"))
  end.

(** [obj[k]] for a string [k]. *)
Definition py_getitem_str (obj : pyval) (k : string) : outcome pyval :=
  match obj with
  | PDict d =>
      match dict_get k d with
      | Some v => Return v
      | None => Raise (KeyError ("'" ++ k ++ "'"))
      end
  | PList _ =>
      Raise (TypeError "list indices must be integers or slices, not str")
  | PStr _ => Raise (TypeError "string indices must be integers, not 'str'")
  | _ => Raise (TypeError ("'" ++ type_name obj
                           ++ "' object is not subscriptable"))
  end.

(** [obj[0]].  The keys of a decoded JSON object are strings, so a [dict]
    never has the key [0]. *)
Definition py_getitem_0 (obj : pyval) : outcome pyval :=
  match obj with
  | PList (x :: _) => Return x
  | PList [] => Raise (IndexError "list index out of range")
  | PStr (String c _) => Return (PStr (String c EmptyString))
  | PStr EmptyString => Raise (IndexError "string index out of range")
  | PDict _ => Raise (KeyError "0")
  | _ => Raise (TypeError ("'" ++ type_name obj
                           ++ "' object is not subscriptable"))
  end.

Fixpoint chars_of (s : string) : list pyval :=
  match s with
  | EmptyString => []
  | String c rest => PStr (String c EmptyString) :: chars_of rest
  end.

(** The items a [for] loop visits. *)
Definition py_iter (obj : pyval) : outcome (list pyval) :=
  match obj with
  | PList l => Return l
  | PDict d => Return (map (fun kv => PStr (fst kv)) d)
  | PStr s => Return (chars_of s)
  | _ => Raise (TypeError ("'" ++ type_name obj ++ "' object is not iterable"))
  end.

Definition str_of_nat (n : nat) : string :=
  NilZero.string_of_uint (Nat.to_uint n).

Definition str_of_Z (z : Z) : string :=
  NilZero.string_of_int (Z.to_int z).

(** ["".join(parts)], where [i] is the position of the head of [parts]. *)
Fixpoint py_join_from (i : nat) (parts : list pyval) : outcome string :=
  match parts with
  | [] => Return ""
  | PStr s :: rest => t <- py_join_from (S i) rest ;; Return (s ++ t)
  | v :: _ =>
      Raise (TypeError ("sequence item " ++ str_of_nat i
                        ++ ": expected str instance, "
                        ++ type_name v ++ " found"))
  end.

Definition py_join (parts : list pyval) : outcome string :=
  py_join_from 0 parts.

(** [a or b], with [b] evaluated only when [a] is falsy. *)
Definition py_or (a : pyval) (b : outcome pyval) : outcome pyval :=
  if truthy a then Return a else b.

(** ** The host: builtins, clock and SDK

    What the gateways use but the repository does not define. *)

Record client : Type := mkClient {
  base_url : pyval;
  api_key : pyval
}.

(** The keyword arguments of the two SDK calls. *)
Inductive sdk_request : Type :=
| ChatCompletionsCreate
    (cl : client) (model messages max_tokens temperature : pyval)
    (extra_headers extra_body : pydict) (timeout : pyval)
| EmbeddingsCreate
    (cl : client) (model : pyval) (input : list string) (timeout : pyval).

Record runtime : Type := mkRuntime {
  (** [repr] of a [str] (quoting and escaping) and of a [float] *)
  repr_str : string -> string;
  repr_float : Q -> string;
  (** the two readings of [_now_ms()] around a provider call *)
  now_ms_before : Z;
  now_ms_after : Z;
  (** [_client.chat.completions.create(...)] and
      [_client.embeddings.create(...)]; a response is represented by the
      key/value structure that its [to_dict()] gives *)
  chat_completions_create : sdk_request -> outcome pyval;
  embeddings_create : sdk_request -> outcome pydict
}.

Inductive event : Type :=
| Network (req : sdk_request)
| Log (level fmt : string) (args : list pyval).

Definition is_network (ev : event) : bool :=
  match ev with Network _ => true | Log _ _ _ => false end.

(** A computation yields the events it caused, in order, and its outcome. *)
Definition M (A : Type) : Type := (list event * outcome A)%type.

Definition mret {A : Type} (a : A) : M A := ([], Return a).

Definition mraise {A : Type} (e : exn) : M A := ([], Raise e).

Definition lift {A : Type} (o : outcome A) : M A := ([], o).

Definition emit (ev : event) : M unit := ([ev], Return tt).

Definition mbind {A B : Type} (c : M A) (k : A -> M B) : M B :=
  match c with
  | (tr, Return a) => ((tr ++ fst (k a))%list, snd (k a))
  | (tr, Raise e) => (tr, Raise e)
  end.

(** [try: body  except Exception as e: handler e] *)
Definition try_except {A : Type} (body : M A) (handler : exn -> M A) : M A :=
  match body with
  | (tr, Return a) => (tr, Return a)
  | (tr, Raise e) => ((tr ++ fst (handler e))%list, snd (handler e))
  end.

Notation "x <~ c ;; k" := (mbind c (fun x => k))
  (at level 61, c at next level, right associativity) : py_scope.

Definition no_network (tr : list event) : Prop :=
  forallb (fun ev => negb (is_network ev)) tr = true.

(** [needle] occurs in [s]. *)
Definition contains (s needle : string) : Prop :=
  exists pre post, s = pre ++ needle ++ post.

Section Builtins.

Variable rt : runtime.

(** [repr(v)] *)
Fixpoint py_repr (v : pyval) : string :=
  match v with
  | PNone => "None"
  | PBool true => "True"
  | PBool false => "False"
  | PInt z => str_of_Z z
  | PFloat q => repr_float rt q
  | PStr s => repr_str rt s
  | PList l => "[" ++ String.concat ", " (map py_repr l) ++ "]"
  | PDict d =>
      "{" ++ String.concat ", "
               (map (fun kv => match kv with
                               | (k, x) => repr_str rt k ++ ": " ++ py_repr x
                               end) d)
          ++ "}"
  end.

(** [str(v)] *)
Definition py_str (v : pyval) : string :=
  match v with
  | PStr s => s
  | _ => py_repr v
  end.

End Builtins.

(** * app/providers/openrouter_openai.py *)

Module OpenrouterOpenai.

(** The names the module binds at import (lines 9-18), each of them
    unconditionally. *)
Record globals : Type := mkGlobals {
  DEFAULT_MODEL : string;
  DEFAULT_TIMEOUT : Z;
  _client : client
}.

Definition ProviderError (msg : string) : exn := mkExn "ProviderError" [] msg.

(** The classes named by the first [except] clause (line 71). *)
Definition sdk_error_classes : list string :=
  ["APIError"; "RateLimitError"; "APITimeoutError"; "InternalServerError"].

(** The two [except] clauses of lines 71-74. *)
Definition provider_except {A : Type} (e : exn) : M A :=
  if existsb (isinstance e) sdk_error_classes
  then mraise (ProviderError (exn_msg e))
  else mraise (ProviderError ("unexpected provider error: " ++ exn_msg e)).

(** What the function returns (line 116). *)
Record completion : Type := mkCompletion {
  text : pyval;
  usage : pyval;
  latency_ms : Z;
  raw : pyval
}.

(** The blocks of a structured [content] that contribute text
    (lines 97-102). *)
Fixpoint content_parts (chunks : list pyval) : list pyval :=
  match chunks with
  | [] => []
  | PDict d :: rest =>
      match dict_get "text" d with
      | Some t => t :: content_parts rest
      | None => content_parts rest
      end
  | PStr s :: rest => PStr s :: content_parts rest
  | _ :: rest => content_parts rest
  end.

(** [body] as it stands after lines 48-56. *)
Definition request_body (model messages : pyval) (max_tokens : option Z)
           (temperature : Q) (extra_body : option pydict) : pydict :=
  let body := [("model", model); ("messages", messages);
               ("temperature", PFloat temperature)] in
  let body := match max_tokens with
              | Some n => dict_set "max_tokens" (PInt n) body
              | None => body
              end in
  match extra_body with
  | Some (kv :: more) => dict_update body (kv :: more)
  | _ => body
  end.

Definition body_get (body : pydict) (k : string) : pyval :=
  match dict_get k body with Some v => v | None => PNone end.

(** [x or {}] for an optional mapping. *)
Definition or_empty (x : option pydict) : pydict :=
  match x with Some (kv :: more) => kv :: more | _ => [] end.

Section Gateway.

Variable rt : runtime.
Variable g : globals.

(** The body of the [try] of lines 82-108. *)
Definition extract_text_try (raw : pyval) : outcome pyval :=
  has_choices <- py_in "choices" raw ;;
  choices <- (if has_choices then py_getitem_str raw "choices"
              else Return PNone) ;;
  if has_choices && truthy choices then
    choice0 <- py_getitem_0 choices ;;
    has_message <- py_in "message" choice0 ;;
    message <- (if has_message then py_getitem_str choice0 "message"
                else Return PNone) ;;
    if has_message && is_dict message then
      msg_content <- py_get message "content" PNone ;;
      match msg_content with
      | PStr s => Return (PStr s)
      | PList chunks =>
          joined <- py_join (content_parts chunks) ;;
          Return (PStr joined)
      | other => Return (PStr (py_str rt other))
      end
    else
      py_get choice0 "text" (PStr "")
  else
    Return (PStr "").

(** Lines 79-111: the extraction with its [except Exception] clause. *)
Definition extract_text (raw : pyval) : outcome pyval :=
  match extract_text_try raw with
  | Return t => Return t
  | Raise _ =>
      shown <- py_get raw "choices" raw ;;
      Return (PStr (py_str rt shown))
  end.

(** Line 114. *)
Definition extract_usage (raw : pyval) : outcome pyval :=
  top <- py_get raw "usage" (PDict []) ;;
  py_or top
    (meta <- py_get raw "meta" (PDict []) ;;
     nested <- py_get meta "usage" (PDict []) ;;
     py_or nested (Return (PDict []))).

(** The keyword arguments of the call of lines 62-70. *)
Definition create_request (messages model : pyval) (max_tokens : option Z)
           (temperature : Q) (extra_headers extra_body : option pydict)
  : sdk_request :=
  let model := if truthy model then model else PStr (DEFAULT_MODEL g) in
  let body := request_body model messages max_tokens temperature extra_body in
  ChatCompletionsCreate (_client g) model messages
                        (body_get body "max_tokens")
                        (body_get body "temperature")
                        (or_empty extra_headers) (or_empty extra_body)
                        (PInt (DEFAULT_TIMEOUT g)).

Definition call_chat_completions
           (messages model : pyval) (max_tokens : option Z)
           (temperature : Q) (extra_headers extra_body : option pydict)
  : M completion :=
  let req := create_request messages model max_tokens temperature
                            extra_headers extra_body in
  let start := now_ms_before rt in
  resp <~ try_except
            (_ <~ emit (Network req) ;; lift (chat_completions_create rt req))
            provider_except ;;
  let latency_ms := (now_ms_after rt - start)%Z in
  let raw := resp in
  text <~ lift (extract_text raw) ;;
  usage <~ lift (extract_usage raw) ;;
  mret (mkCompletion text usage latency_ms raw).

End Gateway.

End OpenrouterOpenai.

(** * app/embeddings/providers.py *)

Module Embeddings.

(** The module's global scope: the names bound to data, in binding order,
    and the SDK client handle [_client] once it is bound.  A name is
    resolved when the statement that mentions it runs. *)
Record namespace : Type := mkNamespace {
  vars : list (string * pyval);
  _client : option client
}.

Definition empty_namespace : namespace := mkNamespace [] None.

Definition assign (name : string) (v : pyval) (G : namespace) : namespace :=
  mkNamespace (dict_set name v (vars G)) (_client G).

Definition assign_client (c : client) (G : namespace) : namespace :=
  mkNamespace (vars G) (Some c).

Definition lookup (G : namespace) (name : string) : outcome pyval :=
  match dict_get name (vars G) with
  | Some v => Return v
  | None => Raise (NameError name)
  end.

Definition lookup_client (G : namespace) : outcome client :=
  match _client G with
  | Some c => Return c
  | None => Raise (NameError "_client")
  end.

(** [os.getenv(name)] and [os.getenv(name, default)], on the process
    environment as [load_dotenv()] leaves it. *)
Definition getenv (environ : list (string * string)) (name : string)
           (default : pyval) : pyval :=
  match dict_get name environ with
  | Some s => PStr s
  | None => default
  end.

Definition OPENROUTER_URL : string := "https://openrouter.ai/api/v1".

(** Lines 14-25: the statements that run when the module is imported.
    The SDK constructor stores the endpoint and the key it is given. *)
Definition module_init (environ : list (string * string)) : outcome namespace :=
  let G := assign "OPENROUTER_API_KEY"
                  (getenv environ "OPENROUTER_API_KEY" PNone)
                  empty_namespace in
  let G := assign "EMBED_MODEL"
                  (getenv environ "EMBED_MODEL" (PStr "text-embedding-3-small"))
                  G in
  key <- lookup G "OPENROUTER_API_KEY" ;;
  let G := if truthy key
           then assign "API_KEY" key (assign "BASE_URL" (PStr OPENROUTER_URL) G)
           else G in
  url <- lookup G "BASE_URL" ;;
  url <- py_or url (Return (PStr OPENROUTER_URL)) ;;
  api <- lookup G "API_KEY" ;;
  Return (assign_client (mkClient url api) G).

(** The scope that the import leaves behind when it succeeds with the
    OpenRouter key [key]. *)
Definition initialised (environ : list (string * string)) (key : pyval)
  : namespace :=
  mkNamespace
    [("OPENROUTER_API_KEY", key);
     ("EMBED_MODEL",
      getenv environ "EMBED_MODEL" (PStr "text-embedding-3-small"));
     ("BASE_URL", PStr OPENROUTER_URL);
     ("API_KEY", key)]
    (Some (mkClient (PStr OPENROUTER_URL) key)).

Definition EmbeddingError (msg : string) : exn :=
  mkExn "EmbeddingError" [] msg.

(** [str(e)] of the [NameError] for the unbound name of line 47. *)
Definition timeout_message : string :=
  "name 'DEFAULT_TIMEOUT' is not defined".

(** The classes named by the first [except] clause (line 48). *)
Definition sdk_error_classes : list string :=
  ["APIError"; "RateLimitError"; "APITimeoutError"; "InternalServerError"].

(** The two [except] clauses of lines 48-53. *)
Definition embedding_except {A : Type} (e : exn) : M A :=
  if existsb (isinstance e) sdk_error_classes
  then
    _ <~ emit (Log "ERROR" "OpenAI embeddings API error: %s" [PStr (exn_msg e)]) ;;
    mraise (EmbeddingError (exn_msg e))
  else
    _ <~ emit (Log "ERROR" "Unexpected embeddings error: %s" [PStr (exn_msg e)]) ;;
    mraise (EmbeddingError ("unexpected embedding error: " ++ exn_msg e)).

(** Lines 60-62: the vector of one item of [data]. *)
Definition vector_of_item (item : pyval) : outcome pyval :=
  e1 <- py_get item "embedding" PNone ;;
  vec <- py_or e1
           (e2 <- py_get item "vector" PNone ;;
            py_or e2
              (e3 <- py_get item "embedding_vector" PNone ;;
               py_or e3 (Return (PList [])))) ;;
  if negb (truthy vec) then
    has_values <- py_in "values" item ;;
    if has_values then py_get item "values" PNone else Return vec
  else Return vec.

(** Lines 57-63: the loop, which stops at the first item that raises. *)
Fixpoint collect_vectors (items : list pyval) : outcome (list pyval) :=
  match items with
  | [] => Return []
  | item :: rest =>
      vec <- vector_of_item item ;;
      vecs <- collect_vectors rest ;;
      Return (vec :: vecs)
  end.

(** Lines 55-63. *)
Definition extract_vectors (raw : pydict) : outcome (list pyval) :=
  let data := match dict_get "data" raw with
              | Some v => v
              | None => PList []
              end in
  items <- py_iter data ;;
  collect_vectors items.

Definition count_warning (n_vectors n_texts : nat) : event :=
  Log "WARNING" "Returned embeddings count (%d) != input count (%d)"
      [PInt (Z.of_nat n_vectors); PInt (Z.of_nat n_texts)].

Section Gateway.

Variable rt : runtime.
Variable G : namespace.

(** Line 47: the callee, then the keyword arguments from left to right,
    then the call. *)
Definition create_stmt (model : pyval) (texts : list string) : M pydict :=
  cl <~ lift (lookup_client G) ;;
  timeout <~ lift (lookup G "DEFAULT_TIMEOUT") ;;
  let req := EmbeddingsCreate cl model texts timeout in
  _ <~ emit (Network req) ;;
  lift (embeddings_create rt req).

(** Lines 55-69: from the response to the returned vectors. *)
Definition vectors_of_response (raw : pydict) (texts : list string)
  : M (list pyval) :=
  vectors <~ lift (extract_vectors raw) ;;
  _ <~ (if Nat.eqb (length vectors) (length texts)
        then mret tt
        else emit (count_warning (length vectors) (length texts))) ;;
  mret vectors.

Definition embed_texts (texts : list string) (model : pyval)
  : M (list pyval) :=
  model <~ lift (py_or model (lookup G "EMBED_MODEL")) ;;
  key <~ lift (lookup G "OPENROUTER_API_KEY") ;;
  if negb (truthy key)
  then mraise (EmbeddingError "OPENROUTER_API_KEY not set in env")
  else
    match texts with
    | [] => mret []
    | _ :: _ =>
        raw <~ try_except (create_stmt model texts) embedding_except ;;
        vectors_of_response raw texts
    end.

End Gateway.

End Embeddings.

(** * Reading requests and responses

    Notions used to state the properties: the keyword arguments of a chat
    request, and the parts of a response that the normalisation looks at. *)

Definition sent_model (req : sdk_request) : pyval :=
  match req with
  | ChatCompletionsCreate _ m _ _ _ _ _ _ => m
  | EmbeddingsCreate _ m _ _ => m
  end.

Definition sent_messages (req : sdk_request) : pyval :=
  match req with
  | ChatCompletionsCreate _ _ ms _ _ _ _ _ => ms
  | EmbeddingsCreate _ _ _ _ => PNone
  end.

Definition sent_max_tokens (req : sdk_request) : pyval :=
  match req with
  | ChatCompletionsCreate _ _ _ mt _ _ _ _ => mt
  | EmbeddingsCreate _ _ _ _ => PNone
  end.

Definition sent_temperature (req : sdk_request) : pyval :=
  match req with
  | ChatCompletionsCreate _ _ _ _ t _ _ _ => t
  | EmbeddingsCreate _ _ _ _ => PNone
  end.

Definition sent_extra_body (req : sdk_request) : pydict :=
  match req with
  | ChatCompletionsCreate _ _ _ _ _ _ eb _ => eb
  | EmbeddingsCreate _ _ _ _ => []
  end.

(** A well-formed [dict] holds each key once. *)
Definition unique_keys {V : Type} (d : list (string * V)) : Prop :=
  NoDup (map fst d).

(** [m.get(k)] on the association list of a [dict]. *)
Definition field (k : string) (d : pydict) : pyval :=
  match dict_get k d with Some v => v | None => PNone end.

(** The [content] of the [message] object of the first choice, for a
    response whose first choice has one. *)
Definition message_content (raw : pyval) : option pyval :=
  match raw with
  | PDict d =>
      match dict_get "choices" d with
      | Some (PList (PDict choice0 :: _)) =>
          match dict_get "message" choice0 with
          | Some (PDict message) => Some (field "content" message)
          | _ => None
          end
      | _ => None
      end
  | _ => None
  end.

(** The strings of a list that holds nothing but strings. *)
Fixpoint strings_of (vs : list pyval) : option (list string) :=
  match vs with
  | [] => Some []
  | PStr s :: rest =>
      match strings_of rest with
      | Some ss => Some (s :: ss)
      | None => None
      end
  | _ :: _ => None
  end.

(** The vector that lines 60-62 yield for an item that is a record. *)
Definition record_vector (d : pydict) : pyval :=
  if truthy (field "embedding" d) then field "embedding" d
  else if truthy (field "vector" d) then field "vector" d
  else if truthy (field "embedding_vector" d) then field "embedding_vector" d
  else if dict_has "values" d then field "values" d
  else PList [].

(** The association list of a value known to be a [dict]. *)
Definition fields_of (v : pyval) : pydict :=
  match v with PDict d => d | _ => [] end.

Definition is_list (v : pyval) : bool :=
  match v with PList _ => true | _ => false end.

(** The [choices] entry of a response. *)
Definition response_choices (raw : pyval) : pyval :=
  field "choices" (fields_of raw).

(** The text that step 3 of the specified normalisation assigns to a
    message content: a string is taken as it is, the contributing parts of
    a list of blocks are concatenated (a part that is not a string by its
    printed form, the most liberal reading), and anything else is
    printed. *)
Inductive claimed_text (rt : runtime) : pyval -> string -> Prop :=
| claimed_string (s : string) :
    claimed_text rt (PStr s) s
| claimed_blocks (chunks : list pyval) :
    claimed_text rt (PList chunks)
      (String.concat "" (map (py_str rt) (OpenrouterOpenai.content_parts chunks)))
| claimed_other (v : pyval) :
    is_str v = false -> is_list v = false ->
    claimed_text rt v (py_str rt v).

(** * A sample host

    A concrete [runtime] on which the statements below are exercised:
    quoting with apostrophes (what [repr] gives for text without quotes,
    backslashes or control characters), floats printed the way whole
    numbers are, and a provider with one fixed chat outcome and one fixed
    embeddings outcome. *)

Definition sample_runtime (chat : outcome pyval) (emb : outcome pydict)
  : runtime :=
  mkRuntime (fun s => "'" ++ s ++ "'")
            (fun q => str_of_Z (Qnum q / Zpos (Qden q)) ++ ".0")
            1000 1250
            (fun _ => chat) (fun _ => emb).

Definition sample_globals : OpenrouterOpenai.globals :=
  OpenrouterOpenai.mkGlobals
    "openai/chatgpt-4o-latest" 60
    (mkClient (PStr "https://openrouter.ai/api/v1") (PStr "sk-or-test")).

Definition sample_environ : list (string * string) :=
  [("OPENROUTER_API_KEY", "sk-or-test")].

Definition response_with_content (content : pyval) : pyval :=
  PDict [("id", PStr "gen-1");
         ("choices",
          PList [PDict [("index", PInt 0);
                        ("message",
                         PDict [("role", PStr "assistant");
                                ("content", content)])]]);
         ("usage", PDict [("total_tokens", PInt 7)])].

(** A legacy-shaped choice whose [text] is JSON [null]. *)
Definition null_text_response : pyval :=
  PDict [("choices", PList [PDict [("index", PInt 0); ("text", PNone)]])].

(** A response whose [usage] is JSON [null]. *)
Definition null_usage_response : pyval :=
  PDict [("choices", PList [PDict [("text", PStr "hi")]]);
         ("usage", PNone)].

Definition nested_usage_response : pyval :=
  PDict [("choices", PList [PDict [("text", PStr "hi")]]);
         ("meta", PDict [("usage", PDict [("total_tokens", PInt 5)])])].

Definition bare_response : pyval :=
  PDict [("choices", PList [PDict [("text", PStr "hi")]])].

(** Two vectors, as a provider might answer a batch of three texts. *)
Definition two_item_response : pydict :=
  [("data", PList [PDict [("embedding", PList [PFloat (1 # 2)])];
                   PDict [("vector", PList [PFloat (1 # 4)])]])].

(** A [data] list whose first item is not a record. *)
Definition stray_item_response : pydict :=
  [("data", PList [PStr "n/a"; PDict [("embedding", PList [PFloat (1 # 2)])]])].

Definition timeout_error : exn :=
  mkExn "APITimeoutError" ["APIConnectionError"; "APIError"; "OpenAIError"]
        "Request timed out.".

Definition rate_limit_error : exn :=
  mkExn "RateLimitError" ["APIStatusError"; "APIError"; "OpenAIError"]
        "Error code: 429".

(** The embedding module's scope with [DEFAULT_TIMEOUT] bound by hand, as
    the sibling script [scripts/embedding_benchmark.py] binds it. *)
Definition patched_namespace : Embeddings.namespace :=
  Embeddings.assign "DEFAULT_TIMEOUT" (PInt 30)
    (Embeddings.initialised sample_environ (PStr "sk-or-test")).

(** * scripts/embedding_benchmark.py

    The stand-alone script carries its own copy of the embedding gateway:
    its own key resolution at import and its own [embed_texts]. *)

Module EmbeddingBenchmark.

(** The names the script binds at import (lines 13-46), all of them on
    every path. *)
Record globals : Type := mkGlobals {
  DEFAULT_TIMEOUT : Z;
  OPENAI_API_KEY : pyval;
  OPENROUTER_API_KEY : pyval;
  EMBED_MODEL : pyval;
  API_KEY : pyval;
  BASE_URL : pyval;
  KEY_SOURCE : pyval;
  _client : option client
}.

Definition OPENROUTER_URL : string := "https://openrouter.ai/api/v1".

Definition OPENAI_URL : string := "https://api.openai.com/v1".

(** [x or None] *)
Definition or_none (x : pyval) : pyval := if truthy x then x else PNone.

(** [key.startswith("sk-or-")] for a key that is a string. *)
Definition is_openrouter_key (key : pyval) : bool :=
  match key with
  | PStr s => String.prefix "sk-or-" s
  | _ => false
  end.

(** Lines 22-38: the key, the endpoint and the name of the source. *)
Definition resolve_key (environ : list (string * string))
           (openai openrouter : pyval) : pyval * pyval * pyval :=
  if truthy openrouter then
    (openrouter,
     Embeddings.getenv environ "OPENROUTER_BASE_URL" (PStr OPENROUTER_URL),
     PStr "OPENROUTER")
  else if truthy openai && is_openrouter_key openai then
    (openai,
     Embeddings.getenv environ "OPENROUTER_BASE_URL" (PStr OPENROUTER_URL),
     PStr "OPENROUTER(via OPENAI_API_KEY)")
  else if truthy openai then
    (openai,
     Embeddings.getenv environ "OPENAI_BASE_URL" (PStr OPENAI_URL),
     PStr "OPENAI")
  else (PNone, PNone, PNone).

Definition EmbeddingError (msg : string) : exn :=
  mkExn "EmbeddingError" [] msg.

Definition no_key_message : string :=
  "No API key configured. Set OPENAI_API_KEY or OPENROUTER_API_KEY in your environment.".

(** The classes named by the first [except] clause (line 69). *)
Definition sdk_error_classes : list string :=
  ["APIError"; "AuthenticationError"; "RateLimitError"; "APITimeoutError";
   "InternalServerError"].

(** The two [except] clauses of lines 69-74. *)
Definition embedding_except {A : Type} (e : exn) : M A :=
  if existsb (isinstance e) sdk_error_classes
  then
    _ <~ emit (Log "ERROR" "OpenAI embeddings API error: %s" [PStr (exn_msg e)]) ;;
    mraise (EmbeddingError (exn_msg e))
  else
    _ <~ emit (Log "ERROR" "Unexpected embeddings error: %s" [PStr (exn_msg e)]) ;;
    mraise (EmbeddingError ("unexpected embedding error: " ++ exn_msg e)).

(** Lines 79-86: the loop, which passes over an item that is not a
    record; the statements that build a vector are those of the
    application module. *)
Fixpoint collect_vectors (items : list pyval) : outcome (list pyval) :=
  match items with
  | [] => Return []
  | item :: rest =>
      if is_dict item then
        vec <- Embeddings.vector_of_item item ;;
        vecs <- collect_vectors rest ;;
        Return (vec :: vecs)
      else collect_vectors rest
  end.

(** Lines 76-86; the response is a key/value structure on both branches
    of line 76. *)
Definition extract_vectors (raw : pydict) : outcome (list pyval) :=
  let data := match dict_get "data" raw with
              | Some v => v
              | None => PList []
              end in
  items <- py_iter data ;;
  collect_vectors items.

Section Script.

(** [int] on a string, a builtin. *)
Variable int_of_str : string -> outcome Z.
Variable rt : runtime.

(** Lines 13-46: the statements that run at import. *)
Definition module_init (environ : list (string * string)) : M globals :=
  timeout <~ lift (int_of_str
                     match dict_get "DEFAULT_TIMEOUT" environ with
                     | Some s => s
                     | None => "30"
                     end) ;;
  let openai := or_none (Embeddings.getenv environ "OPENAI_API_KEY" PNone) in
  let openrouter :=
    or_none (Embeddings.getenv environ "OPENROUTER_API_KEY" PNone) in
  let embed_model :=
    Embeddings.getenv environ "EMBED_MODEL" (PStr "text-embedding-3-small") in
  let '(key, url, source) := resolve_key environ openai openrouter in
  if truthy key && truthy url then
    _ <~ emit (Log "DEBUG"
                   "Embeddings client initialized (source=%s, base_url=%s)"
                   [source; url]) ;;
    mret (mkGlobals timeout openai openrouter embed_model key url source
                    (Some (mkClient url key)))
  else
    _ <~ emit (Log "WARNING"
                   "No API key found. Set OPENAI_API_KEY or OPENROUTER_API_KEY in the environment."
                   []) ;;
    mret (mkGlobals timeout openai openrouter embed_model key url source None).

Variable g : globals.

(** Lines 52-92. *)
Definition embed_texts (texts : list string) (model : pyval)
  : M (list pyval) :=
  let model := if truthy model then model else EMBED_MODEL g in
  match _client g with
  | None => mraise (EmbeddingError no_key_message)
  | Some cl =>
      match texts with
      | [] => mret []
      | _ :: _ =>
          let req := EmbeddingsCreate cl model texts
                                      (PInt (DEFAULT_TIMEOUT g)) in
          raw <~ try_except
                   (_ <~ emit (Network req) ;; lift (embeddings_create rt req))
                   embedding_except ;;
          vectors <~ lift (extract_vectors raw) ;;
          _ <~ (if Nat.eqb (length vectors) (length texts)
                then mret tt
                else emit (Embeddings.count_warning (length vectors)
                                                    (length texts))) ;;
          mret vectors
      end
  end.

End Script.

End EmbeddingBenchmark.

(** * app/main.py: the run endpoint

    [llm_run] is the caller of the chat gateway.  The functions of
    [crud.py] it calls build a row and add, commit and refresh it on the
    SQLAlchemy session; what they return or raise is decided by the
    database, so they are taken as an interface over a database state. *)

Module Main.

(** How a call of the endpoint ends: with a response body, with an
    [HTTPException], or with any other exception, which the framework
    turns into a server error. *)
Inductive result (X : Type) : Type :=
| Done (x : X)
| HTTPException (status_code : Z) (detail : string)
| Unhandled (e : exn).
Arguments Done {X} x.
Arguments HTTPException {X} status_code detail.
Arguments Unhandled {X} e.

(** What the endpoint does to the outside: the events of the gateway and
    the calls of [crud]; a call is recorded whether it returns or
    raises. *)
Inductive app_event : Type :=
| Gateway (ev : event)
| GetSession (session_id : pyval)
| CreateSessionMessage (session_id : pyval) (role : string)
                       (content model : pyval)
| LogUsageEvent (session_message_id : string) (model : pyval)
                (tokens_prompt tokens_response latency_ms : Z).

(** [crud.get_session] (found or not), [crud.create_session_message]
    (the [str] of the new row's id) and [crud.log_usage_event]. *)
Record crud (S : Type) : Type := mkCrud {
  get_session : S -> pyval -> S * outcome bool;
  create_session_message :
    S -> pyval -> string -> pyval -> pyval -> S * outcome string;
  log_usage_event : S -> string -> pyval -> Z -> Z -> Z -> S * outcome unit
}.
Arguments get_session {S} _ _ _.
Arguments create_session_message {S} _ _ _ _ _ _.
Arguments log_usage_event {S} _ _ _ _ _ _ _.

Definition App (S X : Type) : Type := S -> list app_event * S * result X.

Definition aret {S X : Type} (x : X) : App S X := fun s => ([], s, Done x).

Definition araise {S X : Type} (status_code : Z) (detail : string) : App S X :=
  fun s => ([], s, HTTPException status_code detail).

Definition of_outcome {X : Type} (o : outcome X) : result X :=
  match o with
  | Return x => Done x
  | Raise e => Unhandled e
  end.

Definition pure_step {S X : Type} (o : outcome X) : App S X :=
  fun s => ([], s, of_outcome o).

Definition abind {S X Y : Type} (c : App S X) (k : X -> App S Y) : App S Y :=
  fun s =>
    match c s with
    | (tr, s', Done x) =>
        match k x s' with
        | (tr', s'', r) => ((tr ++ tr')%list, s'', r)
        end
    | (tr, s', HTTPException code detail) => (tr, s', HTTPException code detail)
    | (tr, s', Unhandled e) => (tr, s', Unhandled e)
    end.

Notation "x <* c ;; k" := (abind c (fun x => k))
  (at level 61, c at next level, right associativity) : py_scope.

(** [try: c  except Exception: pass] *)
Definition swallow {S : Type} (c : App S unit) : App S unit :=
  fun s => match c s with (tr, s', _) => (tr, s', Done tt) end.

(** [" ".join(parts)] and the like, where [i] is the position of the head
    of [parts]. *)
Fixpoint py_join_sep_from (sep : string) (i : nat) (parts : list pyval)
  : outcome string :=
  match parts with
  | [] => Return ""
  | PStr s :: rest =>
      match rest with
      | [] => Return s
      | _ :: _ =>
          t <- py_join_sep_from sep (S i) rest ;; Return (s ++ sep ++ t)
      end
  | v :: _ =>
      Raise (TypeError ("sequence item " ++ str_of_nat i
                        ++ ": expected str instance, "
                        ++ type_name v ++ " found"))
  end.

(** [role == "user"] *)
Definition is_user (role : pyval) : bool :=
  match role with
  | PStr s => String.eqb s "user"
  | _ => false
  end.

Section Endpoint.

Variable S : Type.
Variable db : crud S.
Variable int_of_str : string -> outcome Z.
Variable rt : runtime.
Variable g : OpenrouterOpenai.globals.

Definition do_get_session (session_id : pyval) : App S bool :=
  fun s =>
    match get_session db s session_id with
    | (s', o) => ([GetSession session_id], s', of_outcome o)
    end.

Definition do_create_session_message
           (session_id : pyval) (role : string) (content model : pyval)
  : App S string :=
  fun s =>
    match create_session_message db s session_id role content model with
    | (s', o) =>
        ([CreateSessionMessage session_id role content model], s', of_outcome o)
    end.

Definition do_log_usage_event
           (message_id : string) (model : pyval)
           (tokens_prompt tokens_response latency_ms : Z) : App S unit :=
  fun s =>
    match log_usage_event db s message_id model
                          tokens_prompt tokens_response latency_ms with
    | (s', o) =>
        ([LogUsageEvent message_id model tokens_prompt tokens_response
                        latency_ms], s', of_outcome o)
    end.

(** Lines 147-160: the text stored for a user message; the blocks that
    contribute are chosen as in the gateway. *)
Definition user_content_str (c : pyval) : outcome string :=
  match c with
  | PList blocks =>
      py_join_sep_from " " 0 (OpenrouterOpenai.content_parts blocks)
  | PStr s => Return s
  | other => Return (py_str rt other)
  end.

(** Lines 145-162: the body of the [try] for one message. *)
Definition persist_user_message (session_id m : pyval) : App S unit :=
  role <* pure_step (py_get m "role" PNone) ;;
  if is_user role then
    c <* pure_step (py_get m "content" PNone) ;;
    content_str <* pure_step (user_content_str c) ;;
    _ <* do_create_session_message session_id "user" (PStr content_str) PNone ;;
    aret tt
  else aret tt.

(** Lines 143-165. *)
Fixpoint persist_user_messages (session_id : pyval) (ms : list pyval)
  : App S unit :=
  match ms with
  | [] => aret tt
  | m :: rest =>
      _ <* swallow (persist_user_message session_id m) ;;
      persist_user_messages session_id rest
  end.

(** [int(v)] *)
Definition py_int (v : pyval) : outcome Z :=
  match v with
  | PInt z => Return z
  | PBool b => Return (if b then 1 else 0)%Z
  | PFloat q => Return (Z.quot (Qnum q) (Zpos (Qden q)))
  | PStr s => int_of_str s
  | _ => Raise (TypeError
                  ("int() argument must be a string, a bytes-like object or a real number, not '"
                   ++ type_name v ++ "'"))
  end.

(** Lines 181-182: [int(usage.get(first, 0) or usage.get(second, 0) or 0)] *)
Definition token_count (usage : pyval) (first second : string) : outcome Z :=
  a <- py_get usage first (PInt 0) ;;
  v <- py_or a (b <- py_get usage second (PInt 0) ;;
                py_or b (Return (PInt 0))) ;;
  py_int v.

(** Lines 128-132. *)
Definition messages_of (payload : pydict) : pyval :=
  match dict_get "messages" payload with
  | Some PNone | None =>
      PList [PDict [("role", PStr "user");
                    ("content", match dict_get "content" payload with
                                | Some c => c
                                | None => PStr ""
                                end)]]
  | Some messages => messages
  end.

(** Lines 168-171. *)
Definition call_provider (messages model : pyval)
  : App S OpenrouterOpenai.completion :=
  fun s =>
    match OpenrouterOpenai.call_chat_completions rt g messages model
                                                 None 0 None None with
    | (tr, Return out) => (map Gateway tr, s, Done out)
    | (tr, Raise e) =>
        (map Gateway tr, s,
         if isinstance e "ProviderError"
         then HTTPException 502 (exn_msg e)
         else Unhandled e)
    end.

(** Lines 173-189: what is done with the provider's answer. *)
Definition store_answer (session_id model : pyval)
           (out : OpenrouterOpenai.completion) : App S pyval :=
  let assistant_text := OpenrouterOpenai.text out in
  let usage := if truthy (OpenrouterOpenai.usage out)
               then OpenrouterOpenai.usage out else PDict [] in
  let latency_ms := OpenrouterOpenai.latency_ms out in
  assistant_id <* do_create_session_message session_id "assistant"
                                            assistant_text model ;;
  tokens_prompt <* pure_step (token_count usage "prompt_tokens" "input_tokens") ;;
  tokens_response <* pure_step
                      (token_count usage "completion_tokens" "output_tokens") ;;
  _ <* do_log_usage_event assistant_id model tokens_prompt tokens_response
                          latency_ms ;;
  aret (PDict [("id", PStr assistant_id); ("content", assistant_text);
               ("usage", usage)]).

(** Line 125. *)
Definition model_of (payload : pydict) : pyval :=
  if truthy (field "model" payload) then field "model" payload
  else PStr (OpenrouterOpenai.DEFAULT_MODEL g).

Definition llm_run (payload : pydict) : App S pyval :=
  let session_id := field "session_id" payload in
  let model := model_of payload in
  let messages := messages_of payload in
  _ <* (if truthy session_id then
          found <* do_get_session session_id ;;
          if found then aret tt else araise 404 "session not found"
        else aret tt) ;;
  items <* pure_step (py_iter messages) ;;
  _ <* persist_user_messages session_id items ;;
  out <* call_provider messages model ;;
  store_answer session_id model out.

End Endpoint.

(** A sample store in the manner of the stubs of [tests/test_api.py]:
    every session but ["not-found"] exists, rows get numbered ids, and the
    state counts the rows written. *)
Definition sample_crud : crud nat :=
  mkCrud nat
    (fun n sid => (n, Return (negb (match sid with
                                    | PStr s => String.eqb s "not-found"
                                    | _ => false
                                    end))))
    (fun n _ _ _ _ => (Datatypes.S n, Return ("msg-" ++ str_of_nat n)))
    (fun n _ _ _ _ _ => (Datatypes.S n, Return tt)).

(** A store whose writes all fail. *)
Definition failing_crud : crud nat :=
  mkCrud nat
    (fun n _ => (n, Return true))
    (fun n _ _ _ _ => (n, Raise (mkExn "IntegrityError" ["DBAPIError"] "insert failed")))
    (fun n _ _ _ _ _ => (n, Raise (mkExn "IntegrityError" ["DBAPIError"] "insert failed"))).

End Main.

(** Whether the first element of [choices] is a record. *)
Definition head_is_record (choices : pyval) : bool :=
  match choices with
  | PList (PDict _ :: _) => true
  | _ => false
  end.

(** The record items of a list, as association lists. *)
Fixpoint records_of (items : list pyval) : list pydict :=
  match items with
  | [] => []
  | PDict d :: rest => d :: records_of rest
  | _ :: rest => records_of rest
  end.

(** A reading of [int] on strings of decimal digits, for the sample
    host. *)
Fixpoint digits_value (acc : Z) (s : string) : option Z :=
  match s with
  | EmptyString => Some acc
  | String c rest =>
      let n := Z.of_nat (nat_of_ascii c) in
      if ((48 <=? n) && (n <=? 57))%Z
      then digits_value (10 * acc + (n - 48)) rest
      else None
  end.

Definition sample_int_of_str (s : string) : outcome Z :=
  match s with
  | EmptyString =>
      Raise (mkExn "ValueError" [] "invalid literal for int() with base 10: ''")
  | _ =>
      match digits_value 0 s with
      | Some z => Return z
      | None =>
          Raise (mkExn "ValueError" []
                       ("invalid literal for int() with base 10: '" ++ s ++ "'"))
      end
  end.

(** * Properties *)

Import OpenrouterOpenai Embeddings.

(** Runs a traced computation up to its next opaque step. *)
Ltac run_trace := cbn [mbind emit lift fst snd app].

(** ** Strings and dictionaries *)

Lemma append_empty_r (s : string) : s ++ "" = s.
Proof. induction s as [|c s IH]; cbn; [reflexivity | now rewrite IH]. Qed.

Lemma contains_self (s : string) : contains s s.
Proof. exists "", "". cbn. now rewrite append_empty_r. Qed.

Lemma contains_after_prefix (p s : string) : contains (p ++ s) s.
Proof. exists p, "". now rewrite append_empty_r. Qed.

Lemma dict_get_set_same {V : Type} (k : string) (v : V) (d : list (string * V)) :
  dict_get k (dict_set k v d) = Some v.
Proof.
  induction d as [|[k' v'] d IH]; cbn.
  - now rewrite String.eqb_refl.
  - destruct (String.eqb k k') eqn:E; cbn; rewrite ?String.eqb_refl, ?E; auto.
Qed.

Lemma dict_get_set_other {V : Type} (k k' : string) (v : V)
      (d : list (string * V)) :
  String.eqb k k' = false ->
  dict_get k (dict_set k' v d) = dict_get k d.
Proof.
  intros Hne. induction d as [|[k0 v0] d IH]; cbn.
  - now rewrite Hne.
  - destruct (String.eqb k' k0) eqn:E; cbn.
    + apply String.eqb_eq in E. subst k0. now rewrite Hne.
    + destruct (String.eqb k k0); auto.
  Qed.

Lemma dict_get_absent {V : Type} (k : string) (d : list (string * V)) :
  ~ In k (map fst d) -> dict_get k d = None.
Proof.
  induction d as [|[k' v'] d IH]; cbn; intros Hnot; [reflexivity|].
  destruct (String.eqb k k') eqn:E.
  - apply String.eqb_eq in E. subst k'. exfalso. apply Hnot. now left.
  - apply IH. intros Hin. apply Hnot. now right.
Qed.

(** After [d.update(extra)] a key of [extra] has the value [extra] gives
    it, and any other key keeps the value it had in [d]. *)
Lemma dict_get_update {V : Type} (k : string) (extra d : list (string * V)) :
  unique_keys extra ->
  dict_get k (dict_update d extra)
  = match dict_get k extra with
    | Some v => Some v
    | None => dict_get k d
    end.
Proof.
  unfold dict_update, unique_keys.
  revert d. induction extra as [|[k' v'] extra IH]; intros d Huniq; cbn.
  - reflexivity.
  - inversion Huniq as [|? ? Hnotin Hrest]; subst.
    rewrite (IH _ Hrest).
    destruct (String.eqb k k') eqn:E.
    + apply String.eqb_eq in E. subst k'.
      rewrite (dict_get_absent _ _ Hnotin). apply dict_get_set_same.
    + destruct (dict_get k extra); [reflexivity|].
      now apply dict_get_set_other.
Qed.

(** ** The embedding module's initialisation *)

Lemma module_init_with_key (environ : list (string * string)) :
  truthy (getenv environ "OPENROUTER_API_KEY" PNone) = true ->
  module_init environ
  = Return (initialised environ (getenv environ "OPENROUTER_API_KEY" PNone)).
Proof.
  intros Hkey. unfold module_init, initialised.
  cbn. rewrite Hkey. cbn. reflexivity.
Qed.

Lemma module_init_without_key (environ : list (string * string)) :
  truthy (getenv environ "OPENROUTER_API_KEY" PNone) = false ->
  module_init environ = Raise (NameError "BASE_URL").
Proof.
  intros Hkey. unfold module_init.
  cbn. rewrite Hkey. cbn. reflexivity.
Qed.

(** A successful import implies a usable OpenRouter key. *)
Lemma module_init_inv (environ : list (string * string)) (G : namespace) :
  module_init environ = Return G ->
  truthy (getenv environ "OPENROUTER_API_KEY" PNone) = true
  /\ G = initialised environ (getenv environ "OPENROUTER_API_KEY" PNone).
Proof.
  intros Hinit.
  destruct (truthy (getenv environ "OPENROUTER_API_KEY" PNone)) eqn:Hkey.
  - rewrite (module_init_with_key _ Hkey) in Hinit.
    injection Hinit as <-. split; reflexivity.
  - rewrite (module_init_without_key _ Hkey) in Hinit. discriminate.
Qed.

(** In the scope left by the import, a call with texts stops at the
    evaluation of the [timeout] argument. *)
Lemma embed_texts_stops_at_timeout
      (rt : runtime) (environ : list (string * string)) (G : namespace)
      (texts : list string) (model : pyval) :
  module_init environ = Return G ->
  texts <> [] ->
  embed_texts rt G texts model
  = ([Log "ERROR" "Unexpected embeddings error: %s" [PStr timeout_message]],
     Raise (EmbeddingError ("unexpected embedding error: " ++ timeout_message))).
Proof.
  intros Hinit Hne.
  apply module_init_inv in Hinit as [Hkey ->].
  destruct texts as [|t ts]; [contradiction|].
  unfold embed_texts, py_or.
  destruct (truthy model); cbn; rewrite Hkey; reflexivity.
Qed.

(** C1.  With no OpenRouter key in the environment (whatever the generic
    key), importing the embedding module raises [NameError] for
    [BASE_URL], which is not an [EmbeddingError]: the failure is neither
    typed nor deferred to the first use of [embed_texts]. *)
Theorem import_without_key_raises_NameError
        (environ : list (string * string)) :
  truthy (getenv environ "OPENROUTER_API_KEY" PNone) = false ->
  module_init environ = Raise (NameError "BASE_URL")
  /\ isinstance (NameError "BASE_URL") "EmbeddingError" = false.
Proof.
  intros Hkey. split; [now apply module_init_without_key | reflexivity].
Qed.

Lemma import_without_key_raises_NameError_witness :
  truthy (getenv [("OPENAI_API_KEY", "sk-test")] "OPENROUTER_API_KEY" PNone)
  = false
  /\ module_init [("OPENAI_API_KEY", "sk-test")] = Raise (NameError "BASE_URL")
  /\ module_init [] = Raise (NameError "BASE_URL").
Proof.
  split; [reflexivity|]. split.
  - apply (import_without_key_raises_NameError [("OPENAI_API_KEY", "sk-test")]).
    reflexivity.
  - apply (import_without_key_raises_NameError []). reflexivity.
Defined.

(** C9.  Once the module is imported, [embed_texts] on an empty list of
    texts returns the empty list and causes no event at all, hence no
    network call. *)
Theorem embed_texts_empty
        (rt : runtime) (environ : list (string * string)) (G : namespace)
        (model : pyval) :
  module_init environ = Return G ->
  embed_texts rt G [] model = ([], Return []).
Proof.
  intros Hinit. apply module_init_inv in Hinit as [Hkey ->].
  unfold embed_texts, py_or.
  destruct (truthy model); cbn; rewrite Hkey; reflexivity.
Qed.

Lemma embed_texts_empty_witness :
  module_init sample_environ
  = Return (initialised sample_environ (PStr "sk-or-test"))
  /\ embed_texts (sample_runtime (Return bare_response) (Return two_item_response))
                 (initialised sample_environ (PStr "sk-or-test")) [] PNone
     = ([], Return []).
Proof.
  split; [reflexivity|].
  apply (embed_texts_empty _ sample_environ). reflexivity.
Defined.

(** C10.  When the OpenRouter key is configured the import succeeds and
    leaves [DEFAULT_TIMEOUT] unbound; every call of [embed_texts] with at
    least one text then raises [EmbeddingError] whose message starts with
    "unexpected embedding error:" and carries the [NameError] text, and no
    network request is issued. *)
Theorem embed_texts_unbound_timeout
        (rt : runtime) (environ : list (string * string))
        (texts : list string) (model : pyval) :
  truthy (getenv environ "OPENROUTER_API_KEY" PNone) = true ->
  texts <> [] ->
  exists G tr,
    module_init environ = Return G
    /\ lookup G "DEFAULT_TIMEOUT" = Raise (NameError "DEFAULT_TIMEOUT")
    /\ embed_texts rt G texts model
       = (tr, Raise (EmbeddingError
                       ("unexpected embedding error: "
                        ++ exn_msg (NameError "DEFAULT_TIMEOUT"))))
    /\ no_network tr.
Proof.
  intros Hkey Hne.
  pose proof (module_init_with_key environ Hkey) as Hinit.
  eexists. eexists. split; [exact Hinit|]. split; [reflexivity|].
  split; [apply (embed_texts_stops_at_timeout rt environ _ texts model Hinit Hne)|].
  reflexivity.
Qed.

Lemma embed_texts_unbound_timeout_witness :
  exists G tr,
    module_init sample_environ = Return G
    /\ lookup G "DEFAULT_TIMEOUT" = Raise (NameError "DEFAULT_TIMEOUT")
    /\ embed_texts (sample_runtime (Return bare_response)
                                   (Return two_item_response))
                   G ["first"; "second"] PNone
       = (tr, Raise (EmbeddingError
                       "unexpected embedding error: name 'DEFAULT_TIMEOUT' is not defined"))
    /\ no_network tr.
Proof.
  apply (embed_texts_unbound_timeout _ sample_environ ["first"; "second"] PNone).
  - reflexivity.
  - discriminate.
Defined.

(** ** Vectors of an embedding response *)

Lemma vector_of_record (d : pydict) :
  vector_of_item (PDict d) = Return (record_vector d).
Proof.
  unfold vector_of_item, record_vector, py_or, py_get, py_in, obind.
  fold (field "embedding" d). fold (field "vector" d).
  fold (field "embedding_vector" d). fold (field "values" d).
  destruct (truthy (field "embedding" d)) eqn:E1.
  { now rewrite E1. }
  destruct (truthy (field "vector" d)) eqn:E2.
  { now rewrite E2. }
  destruct (truthy (field "embedding_vector" d)) eqn:E3.
  { now rewrite E3. }
  cbn. destruct (dict_has "values" d); reflexivity.
Qed.

Lemma collect_vectors_records (ds : list pydict) :
  collect_vectors (map PDict ds) = Return (map record_vector ds).
Proof.
  induction ds as [|d ds IH]; cbn [map collect_vectors].
  - reflexivity.
  - rewrite vector_of_record. cbn. rewrite IH. reflexivity.
Qed.

(** When every item of [data] is a record, the loop yields one vector per
    item, in order; a record with none of the four fields gives [[]]. *)
Lemma extract_vectors_records (raw : pydict) (ds : list pydict) :
  dict_get "data" raw = Some (PList (map PDict ds)) ->
  extract_vectors raw = Return (map record_vector ds)
  /\ length (map record_vector ds) = length ds.
Proof.
  intros Hdata. unfold extract_vectors. rewrite Hdata. cbn.
  split; [apply collect_vectors_records | apply length_map].
Qed.

Lemma record_vector_without_fields (d : pydict) :
  dict_get "embedding" d = None -> dict_get "vector" d = None ->
  dict_get "embedding_vector" d = None -> dict_get "values" d = None ->
  record_vector d = PList [].
Proof.
  intros H1 H2 H3 H4. unfold record_vector, field, dict_has.
  now rewrite H1, H2, H3, H4.
Qed.

(** An item that is not a record stops the loop. *)
Lemma vector_of_non_record (item : pyval) :
  is_dict item = false ->
  vector_of_item item = Raise (AttributeError (type_name item) "get").
Proof. destruct item; cbn; intros H; (discriminate || reflexivity). Qed.

(** Lines 65-69 on their own: a count that differs from the number of
    texts is logged, and the vectors are returned as extracted. *)
Lemma vectors_of_response_records
      (raw : pydict) (ds : list pydict) (texts : list string) :
  dict_get "data" raw = Some (PList (map PDict ds)) ->
  vectors_of_response raw texts
  = (if Nat.eqb (length ds) (length texts) then []
     else [count_warning (length ds) (length texts)],
     Return (map record_vector ds)).
Proof.
  intros Hdata. unfold vectors_of_response.
  destruct (extract_vectors_records raw ds Hdata) as [-> Hlen].
  cbn. rewrite Hlen.
  destruct (Nat.eqb (length ds) (length texts)); reflexivity.
Qed.

(** C6.  In [embed_texts] an item of [data] that is not a record is not
    skipped: the loop raises [AttributeError] on it, outside any handler.
    Besides, in the scope left by the import a call never reaches the
    loop: it raises at the [timeout] argument. *)
Theorem stray_item_is_not_skipped :
  extract_vectors stray_item_response = Raise (AttributeError "str" "get")
  /\ exists G,
      module_init sample_environ = Return G
      /\ snd (embed_texts
                (sample_runtime (Return bare_response)
                                (Return stray_item_response))
                G ["first"; "second"] PNone)
         = Raise (EmbeddingError
                    "unexpected embedding error: name 'DEFAULT_TIMEOUT' is not defined").
Proof.
  split; [reflexivity|].
  exists (initialised sample_environ (PStr "sk-or-test")).
  split; [reflexivity|].
  rewrite (embed_texts_stops_at_timeout _ sample_environ);
    [reflexivity | reflexivity | discriminate].
Qed.

(** C7.  For three texts and a provider that would answer with two items,
    [embed_texts] raises [EmbeddingError] before the provider is reached;
    lines 55-69 taken alone would log the warning and return the two
    vectors. *)
Theorem three_texts_two_items :
  let rt := sample_runtime (Return bare_response) (Return two_item_response) in
  let texts := ["first"; "second"; "third"] in
  exists G,
    module_init sample_environ = Return G
    /\ embed_texts rt G texts PNone
       = ([Log "ERROR" "Unexpected embeddings error: %s" [PStr timeout_message]],
          Raise (EmbeddingError
                   "unexpected embedding error: name 'DEFAULT_TIMEOUT' is not defined"))
    /\ vectors_of_response two_item_response texts
       = ([count_warning 2 3],
          Return [PList [PFloat (1 # 2)]; PList [PFloat (1 # 4)]]).
Proof.
  intros rt texts.
  exists (initialised sample_environ (PStr "sk-or-test")).
  split; [reflexivity|]. split.
  - apply (embed_texts_stops_at_timeout rt sample_environ);
      [reflexivity | discriminate].
  - reflexivity.
Qed.

(** ** Wrapping of failures *)

Lemma provider_except_wraps {A : Type} (e : exn) :
  exists m, @provider_except A e = ([], Raise (ProviderError m))
            /\ contains m (exn_msg e).
Proof.
  unfold provider_except.
  destruct (existsb (isinstance e) OpenrouterOpenai.sdk_error_classes).
  - eexists. split; [reflexivity | apply contains_self].
  - eexists. split; [reflexivity | apply contains_after_prefix].
Qed.

Lemma embedding_except_wraps {A : Type} (e : exn) :
  exists m tr, @embedding_except A e = (tr, Raise (EmbeddingError m))
               /\ contains m (exn_msg e) /\ no_network tr.
Proof.
  unfold embedding_except.
  destruct (existsb (isinstance e) Embeddings.sdk_error_classes).
  - eexists. eexists. split; [reflexivity|].
    split; [apply contains_self | reflexivity].
  - eexists. eexists. split; [reflexivity|].
    split; [apply contains_after_prefix | reflexivity].
Qed.

(** C2.  Whatever the provider call raises, [call_chat_completions]
    raises [ProviderError] and [embed_texts] raises [EmbeddingError], each
    with a message that contains the message of what was raised. *)
Theorem provider_failures_are_wrapped (rt : runtime) :
  (forall g messages model max_tokens temperature extra_headers extra_body e,
      chat_completions_create rt
        (create_request g messages model max_tokens temperature
                        extra_headers extra_body) = Raise e ->
      exists m,
        snd (call_chat_completions rt g messages model max_tokens temperature
                                   extra_headers extra_body)
        = Raise (ProviderError m)
        /\ contains m (exn_msg e))
  /\
  (forall G texts model model' key tr e,
      py_or model (lookup G "EMBED_MODEL") = Return model' ->
      lookup G "OPENROUTER_API_KEY" = Return key ->
      truthy key = true ->
      texts <> [] ->
      create_stmt rt G model' texts = (tr, Raise e) ->
      exists m,
        snd (embed_texts rt G texts model) = Raise (EmbeddingError m)
        /\ contains m (exn_msg e)).
Proof.
  split.
  - intros g messages model max_tokens temperature extra_headers extra_body e Hsdk.
    destruct (@provider_except_wraps pyval e) as (m & Hwrap & Hm).
    exists m. split; [|exact Hm].
    unfold call_chat_completions, try_except.
    run_trace. rewrite Hsdk.
    run_trace. rewrite Hwrap. reflexivity.
  - intros G texts model model' key tr e Hmodel Hlookup Hkey Hne Hstmt.
    destruct (@embedding_except_wraps pydict e) as (m & tr' & Hwrap & Hm & _).
    exists m. split; [|exact Hm].
    destruct texts as [|t ts]; [contradiction|].
    unfold embed_texts. rewrite Hmodel, Hlookup.
    run_trace. rewrite Hkey. cbn [negb].
    unfold try_except. rewrite Hstmt, Hwrap. reflexivity.
Qed.

Lemma provider_failures_are_wrapped_witness :
  (exists m,
      snd (call_chat_completions
             (sample_runtime (Raise timeout_error) (Raise timeout_error))
             sample_globals (PList []) PNone None 0 None None)
      = Raise (ProviderError m)
      /\ contains m "Request timed out.")
  /\ (exists m,
         snd (embed_texts
                (sample_runtime (Raise timeout_error) (Raise rate_limit_error))
                patched_namespace ["first"] PNone)
         = Raise (EmbeddingError m)
         /\ contains m "Error code: 429")
  /\ (exists m,
         snd (embed_texts
                (sample_runtime (Raise timeout_error) (Raise rate_limit_error))
                (initialised sample_environ (PStr "sk-or-test")) ["first"] PNone)
         = Raise (EmbeddingError m)
         /\ contains m "name 'DEFAULT_TIMEOUT' is not defined").
Proof.
  split; [|split].
  - apply (proj1 (provider_failures_are_wrapped
                    (sample_runtime (Raise timeout_error) (Raise timeout_error)))
                 sample_globals (PList []) PNone None 0 None None timeout_error).
    reflexivity.
  - apply (proj2 (provider_failures_are_wrapped
                    (sample_runtime (Raise timeout_error) (Raise rate_limit_error)))
                 patched_namespace ["first"] PNone
                 (PStr "text-embedding-3-small") (PStr "sk-or-test")
                 [Network (EmbeddingsCreate
                             (mkClient (PStr OPENROUTER_URL) (PStr "sk-or-test"))
                             (PStr "text-embedding-3-small") ["first"] (PInt 30))]
                 rate_limit_error);
      [reflexivity | reflexivity | reflexivity | discriminate | reflexivity].
  - apply (proj2 (provider_failures_are_wrapped
                    (sample_runtime (Raise timeout_error) (Raise rate_limit_error)))
                 (initialised sample_environ (PStr "sk-or-test")) ["first"] PNone
                 (PStr "text-embedding-3-small") (PStr "sk-or-test")
                 [] (NameError "DEFAULT_TIMEOUT"));
      [reflexivity | reflexivity | reflexivity | discriminate | reflexivity].
Defined.

(** ** Normalisation of a chat response *)

Lemma concat_cons (s : string) (ss : list string) :
  String.concat "" (s :: ss) = s ++ String.concat "" ss.
Proof. destruct ss; cbn; [now rewrite append_empty_r | reflexivity]. Qed.

Lemma strings_of_map (ss : list string) : strings_of (map PStr ss) = Some ss.
Proof. induction ss as [|s ss IH]; cbn; [reflexivity | now rewrite IH]. Qed.

Lemma py_join_from_strings (vs : list pyval) (ss : list string) (i : nat) :
  strings_of vs = Some ss ->
  py_join_from i vs = Return (String.concat "" ss).
Proof.
  revert ss i. induction vs as [|v vs IH]; intros ss i H; cbn in H.
  - now injection H as <-.
  - destruct v; try discriminate.
    destruct (strings_of vs) as [ss'|] eqn:E; [|discriminate].
    injection H as <-. cbn [py_join_from].
    rewrite (IH ss' (S i) eq_refl). cbn [obind]. now rewrite concat_cons.
Qed.

Lemma py_join_from_other (vs : list pyval) (i : nat) :
  strings_of vs = None -> exists e, py_join_from i vs = Raise e.
Proof.
  revert i. induction vs as [|v vs IH]; intros i H; cbn in H; [discriminate|].
  destruct v; cbn [py_join_from]; try (eexists; reflexivity).
  destruct (strings_of vs) eqn:E; [discriminate|].
  destruct (IH (S i) eq_refl) as [e ->]. exists e. reflexivity.
Qed.

Lemma message_content_inv (raw content : pyval) :
  message_content raw = Some content ->
  exists d choice0 rest message,
    raw = PDict d
    /\ dict_get "choices" d = Some (PList (PDict choice0 :: rest))
    /\ dict_get "message" choice0 = Some (PDict message)
    /\ content = field "content" message.
Proof.
  unfold message_content. intros H.
  destruct raw as [| | | | |?|d]; try discriminate.
  destruct (dict_get "choices" d) as [[| | | | |[|[| | | | | |c0] rest]|]|] eqn:Hc;
    try discriminate.
  destruct (dict_get "message" c0) as [[| | | | | |m]|] eqn:Hm; try discriminate.
  injection H as <-. exists d, c0, rest, m. auto.
Qed.

(** The text extracted from a response whose first choice has a message
    object. *)
Lemma extract_text_of_message (rt : runtime) (raw content : pyval) :
  message_content raw = Some content ->
  extract_text rt raw
  = Return (PStr match content with
                 | PStr s => s
                 | PList chunks =>
                     match strings_of (content_parts chunks) with
                     | Some ss => String.concat "" ss
                     | None => py_str rt (response_choices raw)
                     end
                 | other => py_str rt other
                 end).
Proof.
  intros H.
  destruct (message_content_inv _ _ H) as (d & c0 & rest & m & -> & Hc & Hm & ->).
  unfold extract_text, extract_text_try, response_choices, fields_of, field.
  unfold py_in, py_getitem_str, dict_has. rewrite Hc. cbn.
  rewrite Hm. cbn. rewrite Hc.
  destruct (dict_get "content" m) as [[| | | | |chunks|]|]; try reflexivity.
  unfold py_join.
  destruct (strings_of (content_parts chunks)) as [ss|] eqn:E.
  - rewrite (py_join_from_strings _ ss 0 E). reflexivity.
  - destruct (py_join_from_other _ 0 E) as [e ->]. reflexivity.
Qed.

(** On a key/value response the text extraction never raises. *)
Lemma extract_text_on_dict (rt : runtime) (d : pydict) :
  exists t, extract_text rt (PDict d) = Return t.
Proof.
  unfold extract_text.
  destruct (extract_text_try rt (PDict d)); eexists; reflexivity.
Qed.

(** The [except] clause of line 109: when the steps over [choices] raise,
    the text is the printed [choices], or the printed response when it has
    no [choices]. *)
Lemma extract_text_fallback (rt : runtime) (d : pydict) (e : exn) :
  extract_text_try rt (PDict d) = Raise e ->
  extract_text rt (PDict d)
  = Return (PStr (py_str rt match dict_get "choices" d with
                            | Some choices => choices
                            | None => PDict d
                            end)).
Proof. intros Htry. unfold extract_text. now rewrite Htry. Qed.

(** When the provider call returns and both extractions succeed, the
    function returns the record of line 116. *)
Lemma call_chat_completions_returns
      (rt : runtime) (g : globals) (messages model : pyval)
      (max_tokens : option Z) (temperature : Q)
      (extra_headers extra_body : option pydict) (raw t u : pyval) :
  chat_completions_create rt
    (create_request g messages model max_tokens temperature
                    extra_headers extra_body) = Return raw ->
  extract_text rt raw = Return t ->
  extract_usage raw = Return u ->
  call_chat_completions rt g messages model max_tokens temperature
                        extra_headers extra_body
  = ([Network (create_request g messages model max_tokens temperature
                              extra_headers extra_body)],
     Return (mkCompletion t u (now_ms_after rt - now_ms_before rt) raw)).
Proof.
  intros Hsdk Htext Husage.
  unfold call_chat_completions, try_except.
  run_trace. rewrite Hsdk.
  run_trace. rewrite Htext.
  run_trace. rewrite Husage.
  reflexivity.
Qed.

(** C3.  For a response whose first choice is legacy-shaped with a null
    [text], the returned record's [text] is [None], not a string. *)
Theorem null_legacy_text_is_returned
        (rt : runtime) (g : globals) (messages model : pyval)
        (max_tokens : option Z) (temperature : Q)
        (extra_headers extra_body : option pydict) :
  chat_completions_create rt
    (create_request g messages model max_tokens temperature
                    extra_headers extra_body) = Return null_text_response ->
  exists tr r,
    call_chat_completions rt g messages model max_tokens temperature
                          extra_headers extra_body = (tr, Return r)
    /\ text r = PNone
    /\ is_str (text r) = false.
Proof.
  intros Hsdk.
  eexists. eexists. split.
  - apply (call_chat_completions_returns _ _ _ _ _ _ _ _ _ PNone (PDict []) Hsdk);
      reflexivity.
  - split; reflexivity.
Qed.

Lemma null_legacy_text_is_returned_witness :
  exists tr r,
    call_chat_completions
      (sample_runtime (Return null_text_response) (Return two_item_response))
      sample_globals (PList [PDict [("role", PStr "user");
                                    ("content", PStr "hi")]])
      PNone None 0 None None = (tr, Return r)
    /\ text r = PNone
    /\ is_str (text r) = false.
Proof.
  apply (null_legacy_text_is_returned
           (sample_runtime (Return null_text_response) (Return two_item_response))).
  reflexivity.
Defined.

(** C4, as stated, fails: for the content [[{"type": "text", "text": 5}]]
    the contributing part is not a string, the join raises, and the
    returned [text] is the printed [choices], not the concatenation of the
    parts. *)
Lemma non_string_block_text :
  let content := PList [PDict [("type", PStr "text"); ("text", PInt 5)]] in
  let raw := response_with_content content in
  let rt := sample_runtime (Return raw) (Return two_item_response) in
  message_content raw = Some content
  /\ claimed_text rt content "5"
  /\ exists tr r,
      call_chat_completions rt sample_globals (PList []) PNone None 0 None None
      = (tr, Return r)
      /\ text r
         = PStr "[{'index': 0, 'message': {'role': 'assistant', 'content': [{'type': 'text', 'text': 5}]}}]"
      /\ forall t, claimed_text rt content t -> text r <> PStr t.
Proof.
  intros content raw rt. split; [reflexivity|].
  split; [exact (claimed_blocks rt [PDict [("type", PStr "text"); ("text", PInt 5)]])|].
  eexists. eexists. split; [reflexivity|]. split; [reflexivity|].
  intros t Hclaimed. inversion Hclaimed as [| chunks | v Hs Hl]; subst.
  - discriminate.
  - discriminate Hl.
Qed.

(** C4, amended.  For a response whose first choice has a message object,
    the returned [text] is the content itself when it is a string; the
    concatenation, in order and without separator, of the contributing
    parts when it is a list whose contributing parts are all strings; the
    printed [choices] when it is a list with a contributing part that is
    not a string; and the printed content otherwise. *)
Theorem message_content_text
        (rt : runtime) (g : globals) (messages model : pyval)
        (max_tokens : option Z) (temperature : Q)
        (extra_headers extra_body : option pydict) (raw content u : pyval) :
  chat_completions_create rt
    (create_request g messages model max_tokens temperature
                    extra_headers extra_body) = Return raw ->
  message_content raw = Some content ->
  extract_usage raw = Return u ->
  exists t,
    call_chat_completions rt g messages model max_tokens temperature
                          extra_headers extra_body
    = ([Network (create_request g messages model max_tokens temperature
                                extra_headers extra_body)],
       Return (mkCompletion (PStr t) u (now_ms_after rt - now_ms_before rt) raw))
    /\ match content with
       | PStr s => t = s
       | PList chunks =>
           match strings_of (content_parts chunks) with
           | Some ss => t = String.concat "" ss
           | None => t = py_str rt (response_choices raw)
           end
       | other => t = py_str rt other
       end.
Proof.
  intros Hsdk Hcontent Husage.
  eexists. split.
  - apply (call_chat_completions_returns _ _ _ _ _ _ _ _ _ _ _ Hsdk);
      [apply (extract_text_of_message rt raw content Hcontent) | exact Husage].
  - destruct content as [| | | | |chunks|]; try reflexivity.
    destruct (strings_of (content_parts chunks)); reflexivity.
Qed.

Lemma message_content_text_witness :
  let content := PList [PDict [("text", PStr "a")]; PDict [("text", PStr "b")]] in
  let raw := response_with_content content in
  let rt := sample_runtime (Return raw) (Return two_item_response) in
  exists t,
    call_chat_completions rt sample_globals (PList []) PNone None 0 None None
    = ([Network (create_request sample_globals (PList []) PNone None 0 None None)],
       Return (mkCompletion (PStr t) (PDict [("total_tokens", PInt 7)]) 250 raw))
    /\ t = "ab".
Proof.
  intros content raw rt.
  apply (message_content_text rt sample_globals (PList []) PNone None 0 None None
                              raw content (PDict [("total_tokens", PInt 7)]));
    reflexivity.
Defined.

(** ** The request handed to the SDK *)

(** C5, as stated, fails: with [temperature=0.0] and
    [extra_body={"temperature": 0.9}] the [temperature] argument of the
    provider call is 0.9, the value of [extra_body]. *)
Lemma extra_temperature_overrides :
  let req := create_request sample_globals (PList []) PNone None 0 None
                            (Some [("temperature", PFloat (9 # 10))]) in
  sent_temperature req = PFloat (9 # 10)
  /\ sent_temperature req <> PFloat 0.
Proof. intros req. split; [reflexivity | discriminate]. Qed.

(** C5, amended.  With a non-empty [extra_body], the [model] and
    [messages] arguments of the provider call are the declared ones, the
    [temperature] and [max_tokens] arguments are those of [extra_body]
    when it has these keys and the declared ones otherwise, and
    [extra_body] itself is passed on unchanged. *)
Theorem extra_body_merge
        (g : globals) (messages model : pyval) (max_tokens : option Z)
        (temperature : Q) (extra_headers : option pydict) (extra : pydict) :
  extra <> [] ->
  unique_keys extra ->
  let req := create_request g messages model max_tokens temperature
                            extra_headers (Some extra) in
  sent_model req = (if truthy model then model else PStr (DEFAULT_MODEL g))
  /\ sent_messages req = messages
  /\ sent_temperature req
     = match dict_get "temperature" extra with
       | Some v => v
       | None => PFloat temperature
       end
  /\ sent_max_tokens req
     = match dict_get "max_tokens" extra with
       | Some v => v
       | None => match max_tokens with Some n => PInt n | None => PNone end
       end
  /\ sent_extra_body req = extra.
Proof.
  intros Hne Huniq req. subst req.
  destruct extra as [|kv more]; [contradiction|].
  unfold create_request, request_body, body_get.
  cbn [sent_model sent_messages sent_temperature sent_max_tokens
       sent_extra_body or_empty].
  rewrite !(dict_get_update _ _ _ Huniq).
  repeat split.
  - destruct (dict_get "temperature" (kv :: more)); [reflexivity|].
    destruct max_tokens; reflexivity.
  - destruct (dict_get "max_tokens" (kv :: more)); [reflexivity|].
    destruct max_tokens; reflexivity.
Qed.

Lemma extra_body_merge_witness :
  let extra := [("temperature", PFloat (9 # 10)); ("top_p", PFloat (1 # 2))] in
  let req := create_request sample_globals (PList []) (PStr "m") (Some 16%Z) 0
                            None (Some extra) in
  sent_model req = PStr "m"
  /\ sent_messages req = PList []
  /\ sent_temperature req = PFloat (9 # 10)
  /\ sent_max_tokens req = PInt 16
  /\ sent_extra_body req = extra.
Proof.
  intros extra.
  apply (extra_body_merge sample_globals (PList []) (PStr "m") (Some 16%Z) 0
                          None extra).
  - discriminate.
  - unfold unique_keys. cbn.
    repeat constructor; cbn; intuition discriminate.
Defined.

(** ** Usage *)

(** C8, as stated, fails: a top-level [usage] that is present but null is
    not what the record holds; the record holds the empty mapping. *)
Lemma null_usage_is_replaced :
  let rt := sample_runtime (Return null_usage_response)
                           (Return two_item_response) in
  dict_get "usage" (fields_of null_usage_response) = Some PNone
  /\ exists tr r,
      call_chat_completions rt sample_globals (PList []) PNone None 0 None None
      = (tr, Return r)
      /\ usage r = PDict []
      /\ usage r <> PNone.
Proof.
  intros rt. split; [reflexivity|].
  eexists. eexists. split; [reflexivity|]. split; [reflexivity | discriminate].
Qed.

Lemma extract_usage_on_dict (d : pydict) :
  truthy (field "usage" d) = true
  \/ dict_get "meta" d = None
  \/ is_dict (field "meta" d) = true ->
  extract_usage (PDict d)
  = Return (if truthy (field "usage" d) then field "usage" d
            else if truthy (field "usage" (fields_of (field "meta" d)))
                 then field "usage" (fields_of (field "meta" d))
                 else PDict []).
Proof.
  intros Hshape. unfold extract_usage, py_or, py_get, obind, field in *.
  destruct (dict_get "usage" d) as [top|] eqn:Htop.
  - destruct (truthy top) eqn:Etop; [reflexivity|].
    destruct Hshape as [H | [H | H]]; [discriminate | |].
    + rewrite H. reflexivity.
    + destruct (dict_get "meta" d) as [[| | | | | |m]|]; try discriminate.
      cbn [fields_of].
      destruct (dict_get "usage" m) as [nested|]; [|reflexivity].
      destruct (truthy nested); reflexivity.
  - cbn [truthy].
    destruct Hshape as [H | [H | H]]; [discriminate | |].
    + rewrite H. reflexivity.
    + destruct (dict_get "meta" d) as [[| | | | | |m]|]; try discriminate.
      cbn [fields_of].
      destruct (dict_get "usage" m) as [nested|]; [|reflexivity].
      destruct (truthy nested); reflexivity.
Qed.

(** C8, amended.  For a key/value response whose [meta], when the
    top-level [usage] is absent or falsy, is absent or a mapping, the
    record's [usage] is the top-level [usage] when that is truthy, else
    the nested [meta.usage] when that is truthy, else the empty mapping;
    in particular the absence of both raises nothing. *)
Theorem usage_of_response
        (rt : runtime) (g : globals) (messages model : pyval)
        (max_tokens : option Z) (temperature : Q)
        (extra_headers extra_body : option pydict) (d : pydict) :
  chat_completions_create rt
    (create_request g messages model max_tokens temperature
                    extra_headers extra_body) = Return (PDict d) ->
  truthy (field "usage" d) = true
  \/ dict_get "meta" d = None
  \/ is_dict (field "meta" d) = true ->
  exists t,
    call_chat_completions rt g messages model max_tokens temperature
                          extra_headers extra_body
    = ([Network (create_request g messages model max_tokens temperature
                                extra_headers extra_body)],
       Return (mkCompletion
                 t
                 (if truthy (field "usage" d) then field "usage" d
                  else if truthy (field "usage" (fields_of (field "meta" d)))
                       then field "usage" (fields_of (field "meta" d))
                       else PDict [])
                 (now_ms_after rt - now_ms_before rt)
                 (PDict d))).
Proof.
  intros Hsdk Hshape.
  destruct (extract_text_on_dict rt d) as [t Ht].
  exists t.
  apply (call_chat_completions_returns _ _ _ _ _ _ _ _ _ _ _ Hsdk Ht).
  now apply extract_usage_on_dict.
Qed.

Lemma usage_of_response_witness :
  (exists t,
      call_chat_completions
        (sample_runtime (Return (response_with_content (PStr "hello")))
                        (Return two_item_response))
        sample_globals (PList []) PNone None 0 None None
      = ([Network (create_request sample_globals (PList []) PNone None 0 None None)],
         Return (mkCompletion t (PDict [("total_tokens", PInt 7)]) 250
                              (response_with_content (PStr "hello")))))
  /\ (exists t,
         call_chat_completions
           (sample_runtime (Return nested_usage_response)
                           (Return two_item_response))
           sample_globals (PList []) PNone None 0 None None
         = ([Network (create_request sample_globals (PList []) PNone None 0 None None)],
            Return (mkCompletion t (PDict [("total_tokens", PInt 5)]) 250
                                 nested_usage_response)))
  /\ (exists t,
         call_chat_completions
           (sample_runtime (Return bare_response) (Return two_item_response))
           sample_globals (PList []) PNone None 0 None None
         = ([Network (create_request sample_globals (PList []) PNone None 0 None None)],
            Return (mkCompletion t (PDict []) 250 bare_response))).
Proof.
  split; [|split].
  - apply (usage_of_response
             (sample_runtime (Return (response_with_content (PStr "hello")))
                             (Return two_item_response))
             sample_globals (PList []) PNone None 0 None None
             (fields_of (response_with_content (PStr "hello"))));
      [reflexivity | left; reflexivity].
  - apply (usage_of_response
             (sample_runtime (Return nested_usage_response)
                             (Return two_item_response))
             sample_globals (PList []) PNone None 0 None None
             (fields_of nested_usage_response));
      [reflexivity | right; right; reflexivity].
  - apply (usage_of_response
             (sample_runtime (Return bare_response) (Return two_item_response))
             sample_globals (PList []) PNone None 0 None None
             (fields_of bare_response));
      [reflexivity | right; left; reflexivity].
Defined.

(** * Further properties of the chat gateway *)


(** X2.  Without an [extra_body] the request carries the declared values:
    the model or the default model, the messages, the temperature, the
    module's timeout, and a [max_tokens] that is [None] when the argument
    is omitted and the number itself, zero included, when it is given. *)
Theorem plain_request
        (g : globals) (messages model : pyval) (max_tokens : option Z)
        (temperature : Q) (extra_headers extra_body : option pydict) :
  extra_body = None \/ extra_body = Some [] ->
  create_request g messages model max_tokens temperature
                 extra_headers extra_body
  = ChatCompletionsCreate
      (OpenrouterOpenai._client g)
      (if truthy model then model else PStr (DEFAULT_MODEL g))
      messages
      match max_tokens with Some n => PInt n | None => PNone end
      (PFloat temperature)
      (or_empty extra_headers) [] (PInt (OpenrouterOpenai.DEFAULT_TIMEOUT g)).
Proof.
  intros [-> | ->]; unfold create_request, request_body;
    destruct max_tokens; reflexivity.
Qed.

Lemma plain_request_witness :
  sent_max_tokens (create_request sample_globals (PList []) PNone None 0
                                  None None) = PNone
  /\ sent_max_tokens (create_request sample_globals (PList []) PNone
                                     (Some 0%Z) 0 None (Some [])) = PInt 0.
Proof.
  split.
  - rewrite (plain_request sample_globals (PList []) PNone None 0 None None);
      [reflexivity | left; reflexivity].
  - rewrite (plain_request sample_globals (PList []) PNone (Some 0%Z) 0 None
                           (Some []));
      [reflexivity | right; reflexivity].
Defined.

Lemma extract_text_try_no_choices (rt : runtime) (d : pydict) :
  truthy (field "choices" d) = false ->
  extract_text_try rt (PDict d) = Return (PStr "").
Proof.
  unfold extract_text_try, py_in, py_getitem_str, dict_has, field.
  destruct (dict_get "choices" d) as [choices|]; cbn; [|reflexivity].
  now intros ->.
Qed.

(** X3.  For a key/value response with no [choices], or with [choices]
    empty or otherwise falsy, the returned [text] is the empty string. *)
Theorem text_without_choices
        (rt : runtime) (g : globals) (messages model : pyval)
        (max_tokens : option Z) (temperature : Q)
        (extra_headers extra_body : option pydict) (d : pydict) (u : pyval) :
  chat_completions_create rt
    (create_request g messages model max_tokens temperature
                    extra_headers extra_body) = Return (PDict d) ->
  extract_usage (PDict d) = Return u ->
  truthy (field "choices" d) = false ->
  call_chat_completions rt g messages model max_tokens temperature
                        extra_headers extra_body
  = ([Network (create_request g messages model max_tokens temperature
                              extra_headers extra_body)],
     Return (mkCompletion (PStr "") u (now_ms_after rt - now_ms_before rt)
                          (PDict d))).
Proof.
  intros Hsdk Husage Hchoices.
  apply (call_chat_completions_returns _ _ _ _ _ _ _ _ _ _ _ Hsdk);
    [|exact Husage].
  unfold extract_text. now rewrite (extract_text_try_no_choices rt d Hchoices).
Qed.

Lemma text_without_choices_witness :
  let raw := PDict [("id", PStr "gen-2"); ("choices", PList [])] in
  call_chat_completions (sample_runtime (Return raw) (Return two_item_response))
                        sample_globals (PList []) PNone None 0 None None
  = ([Network (create_request sample_globals (PList []) PNone None 0 None None)],
     Return (mkCompletion (PStr "") (PDict []) 250 raw)).
Proof.
  intros raw.
  apply (text_without_choices
           (sample_runtime (Return raw) (Return two_item_response))
           sample_globals (PList []) PNone None 0 None None
           [("id", PStr "gen-2"); ("choices", PList [])] (PDict []));
    reflexivity.
Defined.

Lemma extract_text_legacy (rt : runtime) (d choice0 : pydict)
      (rest : list pyval) :
  dict_get "choices" d = Some (PList (PDict choice0 :: rest)) ->
  is_dict (field "message" choice0) = false ->
  extract_text rt (PDict d)
  = Return match dict_get "text" choice0 with
           | Some t => t
           | None => PStr ""
           end.
Proof.
  intros Hc Hm.
  unfold extract_text, extract_text_try, py_in, py_getitem_str, dict_has.
  rewrite Hc. cbn. unfold field in Hm.
  destruct (dict_get "message" choice0) as [message|]; cbn.
  - rewrite Hm. reflexivity.
  - reflexivity.
Qed.

(** X4.  When the first choice is a record without a [message] record,
    the returned [text] is the choice's legacy [text] field as it stands,
    and the empty string when the choice has no such field. *)
Theorem legacy_text
        (rt : runtime) (g : globals) (messages model : pyval)
        (max_tokens : option Z) (temperature : Q)
        (extra_headers extra_body : option pydict)
        (d choice0 : pydict) (rest : list pyval) (u : pyval) :
  chat_completions_create rt
    (create_request g messages model max_tokens temperature
                    extra_headers extra_body) = Return (PDict d) ->
  extract_usage (PDict d) = Return u ->
  dict_get "choices" d = Some (PList (PDict choice0 :: rest)) ->
  is_dict (field "message" choice0) = false ->
  call_chat_completions rt g messages model max_tokens temperature
                        extra_headers extra_body
  = ([Network (create_request g messages model max_tokens temperature
                              extra_headers extra_body)],
     Return (mkCompletion
               match dict_get "text" choice0 with
               | Some t => t
               | None => PStr ""
               end
               u (now_ms_after rt - now_ms_before rt) (PDict d))).
Proof.
  intros Hsdk Husage Hc Hm.
  apply (call_chat_completions_returns _ _ _ _ _ _ _ _ _ _ _ Hsdk);
    [|exact Husage].
  now apply (extract_text_legacy rt d choice0 rest).
Qed.

Lemma legacy_text_witness :
  let raw := PDict [("choices", PList [PDict [("index", PInt 0);
                                              ("finish_reason", PStr "stop")]])] in
  call_chat_completions (sample_runtime (Return bare_response)
                                        (Return two_item_response))
                        sample_globals (PList []) PNone None 0 None None
  = ([Network (create_request sample_globals (PList []) PNone None 0 None None)],
     Return (mkCompletion (PStr "hi") (PDict []) 250 bare_response))
  /\ call_chat_completions (sample_runtime (Return raw)
                                           (Return two_item_response))
                           sample_globals (PList []) PNone None 0 None None
     = ([Network (create_request sample_globals (PList []) PNone None 0 None None)],
        Return (mkCompletion (PStr "") (PDict []) 250 raw)).
Proof.
  intros raw. split.
  - apply (legacy_text
             (sample_runtime (Return bare_response) (Return two_item_response))
             sample_globals (PList []) PNone None 0 None None
             (fields_of bare_response) [("text", PStr "hi")] [] (PDict []));
      reflexivity.
  - apply (legacy_text
             (sample_runtime (Return raw) (Return two_item_response))
             sample_globals (PList []) PNone None 0 None None
             (fields_of raw)
             [("index", PInt 0); ("finish_reason", PStr "stop")] [] (PDict []));
      reflexivity.
Defined.

(** A first choice that is not a record makes the steps over [choices]
    raise, whichever way its tests turn out. *)
Lemma non_record_choice_raises (rt : runtime) (choice0 : pyval) :
  is_dict choice0 = false ->
  exists e,
    (has_message <- py_in "message" choice0 ;;
     message <- (if has_message then py_getitem_str choice0 "message"
                 else Return PNone) ;;
     if has_message && is_dict message then
       msg_content <- py_get message "content" PNone ;;
       match msg_content with
       | PStr s => Return (PStr s)
       | PList chunks =>
           joined <- py_join (content_parts chunks) ;;
           Return (PStr joined)
       | other => Return (PStr (py_str rt other))
       end
     else
       py_get choice0 "text" (PStr "")) = Raise e.
Proof.
  intros Hnot.
  destruct choice0 as [| b | z | q | s | l | cd]; try discriminate Hnot;
    cbn [py_in obind]; try (eexists; reflexivity).
  - destruct (is_substring "message" s); cbn; eexists; reflexivity.
  - destruct (existsb _ l); cbn; eexists; reflexivity.
Qed.

Lemma extract_text_try_malformed (rt : runtime) (d : pydict) (choices : pyval) :
  dict_get "choices" d = Some choices ->
  truthy choices = true ->
  head_is_record choices = false ->
  exists e, extract_text_try rt (PDict d) = Raise e.
Proof.
  intros Hc Htruthy Hhead.
  unfold extract_text_try.
  unfold py_in at 1. unfold py_getitem_str at 1. unfold dict_has.
  rewrite Hc. cbn [obind andb]. rewrite Htruthy.
  destruct choices as [| b | z | q | s | l | cd];
    try discriminate Htruthy; try (cbn; eexists; reflexivity).
  - destruct s as [|c s]; [discriminate Htruthy|].
    cbn [py_getitem_0 obind].
    apply (non_record_choice_raises rt (PStr (String c EmptyString))).
    reflexivity.
  - destruct l as [|choice0 rest]; [discriminate Htruthy|].
    cbn [py_getitem_0 obind].
    apply (non_record_choice_raises rt choice0).
    destruct choice0; try reflexivity. discriminate Hhead.
Qed.

(** X5.  When [choices] is non-empty but its first element is not a
    record (a list of strings, a bare string, a number, a mapping, ...),
    nothing is raised and the returned [text] is the printed [choices]. *)
Theorem malformed_choices_text
        (rt : runtime) (g : globals) (messages model : pyval)
        (max_tokens : option Z) (temperature : Q)
        (extra_headers extra_body : option pydict)
        (d : pydict) (choices u : pyval) :
  chat_completions_create rt
    (create_request g messages model max_tokens temperature
                    extra_headers extra_body) = Return (PDict d) ->
  extract_usage (PDict d) = Return u ->
  dict_get "choices" d = Some choices ->
  truthy choices = true ->
  head_is_record choices = false ->
  call_chat_completions rt g messages model max_tokens temperature
                        extra_headers extra_body
  = ([Network (create_request g messages model max_tokens temperature
                              extra_headers extra_body)],
     Return (mkCompletion (PStr (py_str rt choices)) u
                          (now_ms_after rt - now_ms_before rt) (PDict d))).
Proof.
  intros Hsdk Husage Hc Htruthy Hhead.
  apply (call_chat_completions_returns _ _ _ _ _ _ _ _ _ _ _ Hsdk);
    [|exact Husage].
  destruct (extract_text_try_malformed rt d choices Hc Htruthy Hhead) as [e He].
  rewrite (extract_text_fallback rt d e He), Hc. reflexivity.
Qed.

Lemma malformed_choices_text_witness :
  let raw := PDict [("choices", PList [PStr "partial"; PInt 3])] in
  call_chat_completions (sample_runtime (Return raw) (Return two_item_response))
                        sample_globals (PList []) PNone None 0 None None
  = ([Network (create_request sample_globals (PList []) PNone None 0 None None)],
     Return (mkCompletion (PStr "['partial', 3]") (PDict []) 250 raw)).
Proof.
  intros raw.
  apply (malformed_choices_text
           (sample_runtime (Return raw) (Return two_item_response))
           sample_globals (PList []) PNone None 0 None None
           (fields_of raw) (PList [PStr "partial"; PInt 3]) (PDict []));
    reflexivity.
Defined.

(** X6.  On a key/value response the text extraction always yields a
    value, and that value is a string except in one case: the first
    choice is a record without a [message] record and its legacy [text]
    field holds the value that is returned. *)
Theorem text_is_string_unless_legacy (rt : runtime) (d : pydict) :
  exists t,
    extract_text rt (PDict d) = Return t
    /\ (is_str t = true
        \/ exists choice0 rest,
            dict_get "choices" d = Some (PList (PDict choice0 :: rest))
            /\ is_dict (field "message" choice0) = false
            /\ dict_get "text" choice0 = Some t).
Proof.
  destruct (dict_get "choices" d) as [choices|] eqn:Hc.
  - destruct (truthy choices) eqn:Htruthy.
    + destruct (head_is_record choices) eqn:Hhead.
      * destruct choices as [| | | | |[|[| | | | | |choice0] rest]|];
          try discriminate Hhead.
        destruct (is_dict (field "message" choice0)) eqn:Hm.
        -- assert (Hcontent : message_content (PDict d)
                              = Some (field "content"
                                            (fields_of (field "message" choice0)))).
           { unfold message_content. rewrite Hc. unfold field in *.
             destruct (dict_get "message" choice0) as [[| | | | | |m]|];
               try discriminate Hm. reflexivity. }
           rewrite (extract_text_of_message rt _ _ Hcontent).
           eexists. split; [reflexivity | left; reflexivity].
        -- rewrite (extract_text_legacy rt d choice0 rest Hc Hm).
           destruct (dict_get "text" choice0) as [t|] eqn:Ht.
           ++ exists t. split; [reflexivity|]. right.
              exists choice0, rest. auto.
           ++ eexists. split; [reflexivity | left; reflexivity].
      * destruct (extract_text_try_malformed rt d choices Hc Htruthy Hhead)
          as [e He].
        rewrite (extract_text_fallback rt d e He), Hc.
        eexists. split; [reflexivity | left; reflexivity].
    + unfold extract_text.
      rewrite (extract_text_try_no_choices rt d).
      * eexists. split; [reflexivity | left; reflexivity].
      * unfold field. now rewrite Hc.
  - unfold extract_text.
    rewrite (extract_text_try_no_choices rt d).
    + eexists. split; [reflexivity | left; reflexivity].
    + unfold field. now rewrite Hc.
Qed.

Lemma call_chat_completions_usage_raises
      (rt : runtime) (g : globals) (messages model : pyval)
      (max_tokens : option Z) (temperature : Q)
      (extra_headers extra_body : option pydict) (raw t : pyval) (e : exn) :
  chat_completions_create rt
    (create_request g messages model max_tokens temperature
                    extra_headers extra_body) = Return raw ->
  extract_text rt raw = Return t ->
  extract_usage raw = Raise e ->
  call_chat_completions rt g messages model max_tokens temperature
                        extra_headers extra_body
  = ([Network (create_request g messages model max_tokens temperature
                              extra_headers extra_body)],
     Raise e).
Proof.
  intros Hsdk Htext Husage.
  unfold call_chat_completions, try_except.
  run_trace. rewrite Hsdk.
  run_trace. rewrite Htext.
  run_trace. rewrite Husage.
  reflexivity.
Qed.

Lemma call_chat_completions_text_raises
      (rt : runtime) (g : globals) (messages model : pyval)
      (max_tokens : option Z) (temperature : Q)
      (extra_headers extra_body : option pydict) (raw : pyval) (e : exn) :
  chat_completions_create rt
    (create_request g messages model max_tokens temperature
                    extra_headers extra_body) = Return raw ->
  extract_text rt raw = Raise e ->
  call_chat_completions rt g messages model max_tokens temperature
                        extra_headers extra_body
  = ([Network (create_request g messages model max_tokens temperature
                              extra_headers extra_body)],
     Raise e).
Proof.
  intros Hsdk Htext.
  unfold call_chat_completions, try_except.
  run_trace. rewrite Hsdk.
  run_trace. rewrite Htext.
  reflexivity.
Qed.

(** X7.  The usage lookup is not guarded against a [meta] that is not a
    mapping: when the top-level [usage] is absent or falsy and [meta] is,
    say, null, the call raises [AttributeError] after the provider has
    answered, and returns no record.  The error is not a
    [ProviderError]. *)
Theorem non_mapping_meta_raises
        (rt : runtime) (g : globals) (messages model : pyval)
        (max_tokens : option Z) (temperature : Q)
        (extra_headers extra_body : option pydict) (d : pydict) (meta : pyval) :
  chat_completions_create rt
    (create_request g messages model max_tokens temperature
                    extra_headers extra_body) = Return (PDict d) ->
  truthy (field "usage" d) = false ->
  dict_get "meta" d = Some meta ->
  is_dict meta = false ->
  call_chat_completions rt g messages model max_tokens temperature
                        extra_headers extra_body
  = ([Network (create_request g messages model max_tokens temperature
                              extra_headers extra_body)],
     Raise (AttributeError (type_name meta) "get"))
  /\ isinstance (AttributeError (type_name meta) "get") "ProviderError" = false.
Proof.
  intros Hsdk Husage Hmeta Hnot. split; [|reflexivity].
  destruct (extract_text_on_dict rt d) as [t Ht].
  apply (call_chat_completions_usage_raises _ _ _ _ _ _ _ _ _ t _ Hsdk Ht).
  unfold field in Husage. unfold extract_usage, py_or. unfold py_get at 1.
  assert (Htop : truthy match dict_get "usage" d with
                        | Some v => v
                        | None => PDict []
                        end = false).
  { destruct (dict_get "usage" d); [exact Husage | reflexivity]. }
  cbn [obind]. rewrite Htop.
  unfold py_get at 1. rewrite Hmeta. cbn [obind].
  destruct meta; try discriminate Hnot; reflexivity.
Qed.

Lemma non_mapping_meta_raises_witness :
  let raw := PDict [("choices", PList [PDict [("text", PStr "hi")]]);
                    ("meta", PNone)] in
  call_chat_completions (sample_runtime (Return raw) (Return two_item_response))
                        sample_globals (PList []) PNone None 0 None None
  = ([Network (create_request sample_globals (PList []) PNone None 0 None None)],
     Raise (AttributeError "NoneType" "get"))
  /\ isinstance (AttributeError "NoneType" "get") "ProviderError" = false.
Proof.
  intros raw.
  apply (non_mapping_meta_raises
           (sample_runtime (Return raw) (Return two_item_response))
           sample_globals (PList []) PNone None 0 None None
           (fields_of raw) PNone);
    reflexivity.
Defined.

(** X8.  A response that is not a key/value structure yields no record:
    the call raises [AttributeError] for the missing [get], from the
    fallback of the text extraction or from the usage lookup. *)
Theorem non_mapping_response_raises
        (rt : runtime) (g : globals) (messages model : pyval)
        (max_tokens : option Z) (temperature : Q)
        (extra_headers extra_body : option pydict) (raw : pyval) :
  chat_completions_create rt
    (create_request g messages model max_tokens temperature
                    extra_headers extra_body) = Return raw ->
  is_dict raw = false ->
  call_chat_completions rt g messages model max_tokens temperature
                        extra_headers extra_body
  = ([Network (create_request g messages model max_tokens temperature
                              extra_headers extra_body)],
     Raise (AttributeError (type_name raw) "get")).
Proof.
  intros Hsdk Hnot.
  destruct raw as [| b | z | q | s | l | d]; try discriminate Hnot;
    try (apply (call_chat_completions_text_raises _ _ _ _ _ _ _ _ _ _ Hsdk);
         reflexivity).
  - destruct (is_substring "choices" s) eqn:Hsub.
    + apply (call_chat_completions_text_raises _ _ _ _ _ _ _ _ _ _ Hsdk).
      unfold extract_text, extract_text_try. cbn [py_in obind]. rewrite Hsub.
      reflexivity.
    + apply (call_chat_completions_usage_raises _ _ _ _ _ _ _ _ _ (PStr "") _ Hsdk);
        [|reflexivity].
      unfold extract_text, extract_text_try. cbn [py_in obind]. rewrite Hsub.
      reflexivity.
  - destruct (existsb (fun v => match v with
                                | PStr s => String.eqb s "choices"
                                | _ => false
                                end) l) eqn:Hmem.
    + apply (call_chat_completions_text_raises _ _ _ _ _ _ _ _ _ _ Hsdk).
      unfold extract_text, extract_text_try. cbn [py_in obind]. rewrite Hmem.
      reflexivity.
    + apply (call_chat_completions_usage_raises _ _ _ _ _ _ _ _ _ (PStr "") _ Hsdk);
        [|reflexivity].
      unfold extract_text, extract_text_try. cbn [py_in obind]. rewrite Hmem.
      reflexivity.
Qed.

Lemma non_mapping_response_raises_witness :
  call_chat_completions
    (sample_runtime (Return (PList [PStr "choices"])) (Return two_item_response))
    sample_globals (PList []) PNone None 0 None None
  = ([Network (create_request sample_globals (PList []) PNone None 0 None None)],
     Raise (AttributeError "list" "get")).
Proof.
  apply (non_mapping_response_raises
           (sample_runtime (Return (PList [PStr "choices"]))
                           (Return two_item_response))
           sample_globals (PList []) PNone None 0 None None
           (PList [PStr "choices"]));
    reflexivity.
Defined.

(** * Further properties of the embedding module *)

(** X9.  Whenever the import of the embedding module succeeds, the
    OpenRouter key is set and non-empty, the client targets the
    OpenRouter endpoint with that key, and the default model is
    [EMBED_MODEL] from the environment or "text-embedding-3-small"; a
    generic [OPENAI_API_KEY] plays no part, whatever its value. *)
Theorem import_uses_openrouter_only
        (environ : list (string * string)) (G : namespace) :
  module_init environ = Return G ->
  truthy (getenv environ "OPENROUTER_API_KEY" PNone) = true
  /\ Embeddings._client G
     = Some (mkClient (PStr Embeddings.OPENROUTER_URL)
                      (getenv environ "OPENROUTER_API_KEY" PNone))
  /\ lookup G "EMBED_MODEL"
     = Return (getenv environ "EMBED_MODEL" (PStr "text-embedding-3-small"))
  /\ forall generic_key,
      module_init (dict_set "OPENAI_API_KEY" generic_key environ) = Return G.
Proof.
  intros Hinit.
  destruct (module_init_inv environ G Hinit) as [Hkey ->].
  split; [exact Hkey|]. split; [reflexivity|]. split; [reflexivity|].
  intros generic_key.
  assert (Hget : forall k, String.eqb k "OPENAI_API_KEY" = false ->
                           forall dflt,
                             getenv (dict_set "OPENAI_API_KEY" generic_key environ)
                                    k dflt
                             = getenv environ k dflt).
  { intros k Hk dflt. unfold getenv.
    now rewrite (dict_get_set_other k "OPENAI_API_KEY" generic_key environ Hk). }
  rewrite (module_init_with_key (dict_set "OPENAI_API_KEY" generic_key environ)).
  - unfold initialised. rewrite !Hget by reflexivity. reflexivity.
  - now rewrite Hget by reflexivity.
Qed.

Lemma import_uses_openrouter_only_witness :
  truthy (getenv sample_environ "OPENROUTER_API_KEY" PNone) = true
  /\ Embeddings._client (initialised sample_environ (PStr "sk-or-test"))
     = Some (mkClient (PStr Embeddings.OPENROUTER_URL)
                      (getenv sample_environ "OPENROUTER_API_KEY" PNone))
  /\ lookup (initialised sample_environ (PStr "sk-or-test")) "EMBED_MODEL"
     = Return (getenv sample_environ "EMBED_MODEL"
                      (PStr "text-embedding-3-small"))
  /\ forall generic_key,
      module_init (dict_set "OPENAI_API_KEY" generic_key sample_environ)
      = Return (initialised sample_environ (PStr "sk-or-test")).
Proof.
  apply (import_uses_openrouter_only sample_environ
           (initialised sample_environ (PStr "sk-or-test"))).
  reflexivity.
Defined.

(** * The benchmark script *)

Lemma benchmark_module_init_eq
      (int_of_str : string -> outcome Z) (environ : list (string * string))
      (timeout : Z) :
  int_of_str match dict_get "DEFAULT_TIMEOUT" environ with
             | Some s => s
             | None => "30"
             end = Return timeout ->
  let openai :=
    EmbeddingBenchmark.or_none (getenv environ "OPENAI_API_KEY" PNone) in
  let openrouter :=
    EmbeddingBenchmark.or_none (getenv environ "OPENROUTER_API_KEY" PNone) in
  let kus := EmbeddingBenchmark.resolve_key environ openai openrouter in
  let key := fst (fst kus) in
  let url := snd (fst kus) in
  exists tr,
    EmbeddingBenchmark.module_init int_of_str environ
    = (tr,
       Return (EmbeddingBenchmark.mkGlobals
                 timeout openai openrouter
                 (getenv environ "EMBED_MODEL" (PStr "text-embedding-3-small"))
                 key url (snd kus)
                 (if truthy key && truthy url
                  then Some (mkClient url key) else None)))
    /\ no_network tr.
Proof.
  intros Hint openai openrouter kus key url.
  unfold EmbeddingBenchmark.module_init. rewrite Hint. run_trace.
  fold openai. fold openrouter. fold kus.
  subst key url. destruct kus as [[key url] source]. cbn [fst snd].
  destruct (truthy key && truthy url); eexists; split; reflexivity.
Qed.

(** X10.  The script's import never fails for want of a key: once the
    timeout parses it completes without network traffic, and it picks the
    key and the endpoint in this order: the OpenRouter key with the
    OpenRouter endpoint; else a generic key that starts with "sk-or-",
    again with the OpenRouter endpoint; else any other generic key with
    the OpenAI endpoint; else nothing, and then there is no client.  A
    client exists exactly when the chosen key and endpoint are both
    non-empty. *)
Theorem benchmark_key_resolution
        (int_of_str : string -> outcome Z) (environ : list (string * string))
        (timeout : Z) :
  int_of_str match dict_get "DEFAULT_TIMEOUT" environ with
             | Some s => s
             | None => "30"
             end = Return timeout ->
  exists tr G,
    EmbeddingBenchmark.module_init int_of_str environ = (tr, Return G)
    /\ no_network tr
    /\ EmbeddingBenchmark.DEFAULT_TIMEOUT G = timeout
    /\ (let openrouter := getenv environ "OPENROUTER_API_KEY" PNone in
        let openai := getenv environ "OPENAI_API_KEY" PNone in
        let openrouter_url :=
          getenv environ "OPENROUTER_BASE_URL"
                 (PStr EmbeddingBenchmark.OPENROUTER_URL) in
        let openai_url :=
          getenv environ "OPENAI_BASE_URL" (PStr EmbeddingBenchmark.OPENAI_URL) in
        (truthy openrouter = true ->
         EmbeddingBenchmark.API_KEY G = openrouter
         /\ EmbeddingBenchmark.BASE_URL G = openrouter_url)
        /\ (truthy openrouter = false -> truthy openai = true ->
            EmbeddingBenchmark.is_openrouter_key openai = true ->
            EmbeddingBenchmark.API_KEY G = openai
            /\ EmbeddingBenchmark.BASE_URL G = openrouter_url)
        /\ (truthy openrouter = false -> truthy openai = true ->
            EmbeddingBenchmark.is_openrouter_key openai = false ->
            EmbeddingBenchmark.API_KEY G = openai
            /\ EmbeddingBenchmark.BASE_URL G = openai_url)
        /\ (truthy openrouter = false -> truthy openai = false ->
            EmbeddingBenchmark.API_KEY G = PNone
            /\ EmbeddingBenchmark._client G = None))
    /\ EmbeddingBenchmark._client G
       = (if truthy (EmbeddingBenchmark.API_KEY G)
             && truthy (EmbeddingBenchmark.BASE_URL G)
          then Some (mkClient (EmbeddingBenchmark.BASE_URL G)
                              (EmbeddingBenchmark.API_KEY G))
          else None).
Proof.
  intros Hint.
  destruct (benchmark_module_init_eq int_of_str environ timeout Hint)
    as (tr & Hinit & Htr).
  eexists. eexists. split; [exact Hinit|]. split; [exact Htr|].
  split; [reflexivity|]. cbn [EmbeddingBenchmark.API_KEY
                              EmbeddingBenchmark.BASE_URL
                              EmbeddingBenchmark._client].
  split; [|reflexivity].
  unfold EmbeddingBenchmark.resolve_key, EmbeddingBenchmark.or_none.
  repeat split; intros;
    repeat match goal with
           | H : truthy _ = _ |- _ => rewrite H; cbn [truthy andb fst snd]
           | H : EmbeddingBenchmark.is_openrouter_key _ = _ |- _ =>
               rewrite H; cbn [truthy andb fst snd]
           end;
    reflexivity.
Qed.

Lemma benchmark_key_resolution_witness :
  exists tr G,
    EmbeddingBenchmark.module_init
      sample_int_of_str
      [("OPENAI_API_KEY", "sk-or-abc"); ("DEFAULT_TIMEOUT", "12")]
    = (tr, Return G)
    /\ EmbeddingBenchmark.DEFAULT_TIMEOUT G = 12%Z
    /\ EmbeddingBenchmark.API_KEY G = PStr "sk-or-abc"
    /\ EmbeddingBenchmark.BASE_URL G = PStr EmbeddingBenchmark.OPENROUTER_URL.
Proof.
  destruct (benchmark_key_resolution
              sample_int_of_str
              [("OPENAI_API_KEY", "sk-or-abc"); ("DEFAULT_TIMEOUT", "12")]
              12%Z eq_refl)
    as (tr & G & Hinit & _ & Htimeout & (_ & Hsniff & _) & _).
  exists tr, G. split; [exact Hinit|]. split; [exact Htimeout|].
  exact (Hsniff eq_refl eq_refl eq_refl).
Defined.

(** X11.  In an environment with neither key, the script's import still
    completes, and afterwards every call of its [embed_texts], with or
    without texts, raises [EmbeddingError] with the "No API key
    configured" message and causes no event. *)
Theorem benchmark_without_keys
        (int_of_str : string -> outcome Z) (rt : runtime)
        (environ : list (string * string)) (timeout : Z) :
  int_of_str match dict_get "DEFAULT_TIMEOUT" environ with
             | Some s => s
             | None => "30"
             end = Return timeout ->
  truthy (getenv environ "OPENROUTER_API_KEY" PNone) = false ->
  truthy (getenv environ "OPENAI_API_KEY" PNone) = false ->
  exists tr G,
    EmbeddingBenchmark.module_init int_of_str environ = (tr, Return G)
    /\ forall texts model,
        EmbeddingBenchmark.embed_texts rt G texts model
        = ([], Raise (EmbeddingBenchmark.EmbeddingError
                        EmbeddingBenchmark.no_key_message)).
Proof.
  intros Hint Hrouter Hopenai.
  destruct (benchmark_module_init_eq int_of_str environ timeout Hint)
    as (tr & Hinit & _).
  eexists. eexists. split; [exact Hinit|].
  intros texts model. unfold EmbeddingBenchmark.embed_texts.
  cbn [EmbeddingBenchmark._client].
  unfold EmbeddingBenchmark.resolve_key, EmbeddingBenchmark.or_none.
  rewrite Hrouter, Hopenai. reflexivity.
Qed.

Lemma benchmark_without_keys_witness :
  exists tr G,
    EmbeddingBenchmark.module_init sample_int_of_str [("EMBED_MODEL", "m")]
    = (tr, Return G)
    /\ forall texts model,
        EmbeddingBenchmark.embed_texts
          (sample_runtime (Return bare_response) (Return two_item_response))
          G texts model
        = ([], Raise (EmbeddingBenchmark.EmbeddingError
                        EmbeddingBenchmark.no_key_message)).
Proof.
  apply (benchmark_without_keys
           sample_int_of_str
           (sample_runtime (Return bare_response) (Return two_item_response))
           [("EMBED_MODEL", "m")] 30%Z);
    reflexivity.
Defined.

(** X12.  With a client, the script's [embed_texts] returns [[]] for no
    texts without any event, and for one or more texts it starts with
    exactly one provider request, which carries the texts, the given
    model or [EMBED_MODEL], and [DEFAULT_TIMEOUT]; nothing else it does
    touches the network. *)
Theorem benchmark_one_request
        (rt : runtime) (g : EmbeddingBenchmark.globals) (cl : client)
        (texts : list string) (model : pyval) :
  EmbeddingBenchmark._client g = Some cl ->
  (texts = [] ->
   EmbeddingBenchmark.embed_texts rt g texts model = ([], Return []))
  /\ (texts <> [] ->
      exists rest,
        fst (EmbeddingBenchmark.embed_texts rt g texts model)
        = Network (EmbeddingsCreate
                     cl
                     (if truthy model then model
                      else EmbeddingBenchmark.EMBED_MODEL g)
                     texts
                     (PInt (EmbeddingBenchmark.DEFAULT_TIMEOUT g)))
          :: rest
        /\ no_network rest).
Proof.
  intros Hcl. unfold EmbeddingBenchmark.embed_texts. rewrite Hcl. split.
  - intros ->. reflexivity.
  - intros Hne. destruct texts as [|t ts]; [contradiction|].
    unfold try_except. run_trace.
    destruct (embeddings_create rt _) as [raw|e]; run_trace.
    + destruct (EmbeddingBenchmark.extract_vectors raw) as [vectors|e];
        run_trace; [|eexists; split; reflexivity].
      destruct (Nat.eqb (length vectors) (length (t :: ts)));
        eexists; split; reflexivity.
    + unfold EmbeddingBenchmark.embedding_except.
      destruct (existsb (isinstance e) EmbeddingBenchmark.sdk_error_classes);
        eexists; split; reflexivity.
Qed.

Lemma benchmark_one_request_witness :
  let g := EmbeddingBenchmark.mkGlobals
             30 PNone (PStr "k") (PStr "text-embedding-3-small")
             (PStr "k") (PStr EmbeddingBenchmark.OPENROUTER_URL)
             (PStr "OPENROUTER")
             (Some (mkClient (PStr EmbeddingBenchmark.OPENROUTER_URL) (PStr "k"))) in
  let rt := sample_runtime (Return bare_response) (Return two_item_response) in
  EmbeddingBenchmark.embed_texts rt g [] PNone = ([], Return [])
  /\ exists rest,
      fst (EmbeddingBenchmark.embed_texts rt g ["first"] (PStr "custom"))
      = Network (EmbeddingsCreate
                   (mkClient (PStr EmbeddingBenchmark.OPENROUTER_URL) (PStr "k"))
                   (PStr "custom") ["first"] (PInt 30))
        :: rest
      /\ no_network rest.
Proof.
  intros g rt. split.
  - apply (proj1 (benchmark_one_request rt g _ [] PNone eq_refl)). reflexivity.
  - apply (proj2 (benchmark_one_request rt g _ ["first"] (PStr "custom") eq_refl)).
    discriminate.
Defined.

(** X13.  When the provider call of the script's [embed_texts] raises,
    the failure is logged once and re-raised as [EmbeddingError] whose
    message contains the original one; for the SDK's API errors,
    authentication errors among them, the message is the original one
    unchanged.  The request is not repeated. *)
Theorem benchmark_failures_are_wrapped
        (rt : runtime) (g : EmbeddingBenchmark.globals) (cl : client)
        (texts : list string) (model : pyval) (e : exn) :
  EmbeddingBenchmark._client g = Some cl ->
  texts <> [] ->
  embeddings_create rt
    (EmbeddingsCreate cl
       (if truthy model then model else EmbeddingBenchmark.EMBED_MODEL g)
       texts (PInt (EmbeddingBenchmark.DEFAULT_TIMEOUT g))) = Raise e ->
  exists fmt m,
    EmbeddingBenchmark.embed_texts rt g texts model
    = ([Network (EmbeddingsCreate
                   cl
                   (if truthy model then model
                    else EmbeddingBenchmark.EMBED_MODEL g)
                   texts (PInt (EmbeddingBenchmark.DEFAULT_TIMEOUT g)));
        Log "ERROR" fmt [PStr (exn_msg e)]],
       Raise (EmbeddingBenchmark.EmbeddingError m))
    /\ contains m (exn_msg e)
    /\ (isinstance e "APIError" = true
        \/ isinstance e "AuthenticationError" = true ->
        m = exn_msg e).
Proof.
  intros Hcl Hne Hsdk. destruct texts as [|t ts]; [contradiction|].
  unfold EmbeddingBenchmark.embed_texts. rewrite Hcl.
  unfold try_except. run_trace. rewrite Hsdk. run_trace.
  unfold EmbeddingBenchmark.embedding_except.
  destruct (existsb (isinstance e) EmbeddingBenchmark.sdk_error_classes) eqn:Hsdk_class.
  - eexists. eexists. split; [reflexivity|].
    split; [apply contains_self | reflexivity].
  - eexists. eexists. split; [reflexivity|].
    split; [apply contains_after_prefix|].
    intros Hinst. exfalso.
    unfold EmbeddingBenchmark.sdk_error_classes in Hsdk_class.
    cbn [existsb] in Hsdk_class.
    apply Bool.orb_false_iff in Hsdk_class as [Hapi Hrest].
    apply Bool.orb_false_iff in Hrest as [Hauth _].
    destruct Hinst as [H | H]; congruence.
Qed.

Lemma benchmark_failures_are_wrapped_witness :
  let g := EmbeddingBenchmark.mkGlobals
             30 PNone (PStr "k") (PStr "text-embedding-3-small")
             (PStr "k") (PStr EmbeddingBenchmark.OPENROUTER_URL)
             (PStr "OPENROUTER")
             (Some (mkClient (PStr EmbeddingBenchmark.OPENROUTER_URL) (PStr "k"))) in
  let rt := sample_runtime (Return bare_response) (Raise rate_limit_error) in
  exists fmt m,
    EmbeddingBenchmark.embed_texts rt g ["first"] PNone
    = ([Network (EmbeddingsCreate
                   (mkClient (PStr EmbeddingBenchmark.OPENROUTER_URL) (PStr "k"))
                   (PStr "text-embedding-3-small") ["first"] (PInt 30));
        Log "ERROR" fmt [PStr "Error code: 429"]],
       Raise (EmbeddingBenchmark.EmbeddingError m))
    /\ contains m "Error code: 429"
    /\ (isinstance rate_limit_error "APIError" = true
        \/ isinstance rate_limit_error "AuthenticationError" = true ->
        m = "Error code: 429").
Proof.
  intros g rt.
  apply (benchmark_failures_are_wrapped rt g _ ["first"] PNone rate_limit_error);
    [reflexivity | discriminate | reflexivity].
Defined.

Lemma benchmark_collect_vectors (items : list pyval) :
  EmbeddingBenchmark.collect_vectors items
  = Return (map record_vector (records_of items)).
Proof.
  induction items as [|item items IH]; [reflexivity|].
  destruct item as [| | | | | |d]; cbn [EmbeddingBenchmark.collect_vectors
                                        is_dict records_of]; try exact IH.
  rewrite vector_of_record. cbn [obind]. rewrite IH. reflexivity.
Qed.

Lemma records_of_length (items : list pyval) :
  (length (records_of items) <= length items)%nat.
Proof.
  induction items as [|item items IH]; cbn; [lia|].
  destruct item; cbn; lia.
Qed.

(** X14.  When the provider answers the script's [embed_texts] with a
    [data] list, the result holds one vector for each item that is a
    record, in order, and none for the other items: for a record the
    first non-empty of [embedding], [vector], [embedding_vector], else
    its [values] field when present, else [[]].  A count that differs
    from the number of texts is logged as a warning and changes
    nothing. *)
Theorem benchmark_vectors
        (rt : runtime) (g : EmbeddingBenchmark.globals) (cl : client)
        (texts : list string) (model : pyval) (raw : pydict)
        (items : list pyval) :
  EmbeddingBenchmark._client g = Some cl ->
  texts <> [] ->
  embeddings_create rt
    (EmbeddingsCreate cl
       (if truthy model then model else EmbeddingBenchmark.EMBED_MODEL g)
       texts (PInt (EmbeddingBenchmark.DEFAULT_TIMEOUT g))) = Return raw ->
  dict_get "data" raw = Some (PList items) ->
  EmbeddingBenchmark.embed_texts rt g texts model
  = (Network (EmbeddingsCreate
                cl
                (if truthy model then model
                 else EmbeddingBenchmark.EMBED_MODEL g)
                texts (PInt (EmbeddingBenchmark.DEFAULT_TIMEOUT g)))
     :: (if Nat.eqb (length (records_of items)) (length texts) then []
         else [count_warning (length (records_of items)) (length texts)]),
     Return (map record_vector (records_of items)))
  /\ (length (map record_vector (records_of items)) <= length items)%nat.
Proof.
  intros Hcl Hne Hsdk Hdata. split.
  - destruct texts as [|t ts]; [contradiction|].
    unfold EmbeddingBenchmark.embed_texts. rewrite Hcl.
    unfold try_except. run_trace. rewrite Hsdk. run_trace.
    unfold EmbeddingBenchmark.extract_vectors. rewrite Hdata.
    cbn [py_iter obind]. rewrite benchmark_collect_vectors. run_trace.
    rewrite length_map.
    destruct (Nat.eqb (length (records_of items)) (length (t :: ts)));
      reflexivity.
  - rewrite length_map. apply records_of_length.
Qed.

Lemma benchmark_vectors_witness :
  let g := EmbeddingBenchmark.mkGlobals
             30 PNone (PStr "k") (PStr "text-embedding-3-small")
             (PStr "k") (PStr EmbeddingBenchmark.OPENROUTER_URL)
             (PStr "OPENROUTER")
             (Some (mkClient (PStr EmbeddingBenchmark.OPENROUTER_URL) (PStr "k"))) in
  let raw := [("data", PList [PStr "n/a";
                              PDict [("embedding", PList []);
                                     ("values", PList [PFloat (1 # 2)])];
                              PDict [("object", PStr "embedding")]])] in
  let rt := sample_runtime (Return bare_response) (Return raw) in
  EmbeddingBenchmark.embed_texts rt g ["first"; "second"; "third"] PNone
  = ([Network (EmbeddingsCreate
                 (mkClient (PStr EmbeddingBenchmark.OPENROUTER_URL) (PStr "k"))
                 (PStr "text-embedding-3-small")
                 ["first"; "second"; "third"] (PInt 30));
      count_warning 2 3],
     Return [PList [PFloat (1 # 2)]; PList []])
  /\ (2 <= 3)%nat.
Proof.
  intros g raw rt.
  apply (benchmark_vectors rt g _ ["first"; "second"; "third"] PNone raw
                           [PStr "n/a";
                            PDict [("embedding", PList []);
                                   ("values", PList [PFloat (1 # 2)])];
                            PDict [("object", PStr "embedding")]]);
    [reflexivity | discriminate | reflexivity | reflexivity].
Defined.

(** X15.  A [data] entry that cannot be iterated (null, a number, a
    boolean) is not covered by the script's handlers: after the provider
    has answered, [embed_texts] raises the [TypeError] of the loop, which
    is not an [EmbeddingError]. *)
Theorem benchmark_data_not_iterable
        (rt : runtime) (g : EmbeddingBenchmark.globals) (cl : client)
        (texts : list string) (model : pyval) (raw : pydict)
        (data : pyval) (e : exn) :
  EmbeddingBenchmark._client g = Some cl ->
  texts <> [] ->
  embeddings_create rt
    (EmbeddingsCreate cl
       (if truthy model then model else EmbeddingBenchmark.EMBED_MODEL g)
       texts (PInt (EmbeddingBenchmark.DEFAULT_TIMEOUT g))) = Return raw ->
  dict_get "data" raw = Some data ->
  py_iter data = Raise e ->
  EmbeddingBenchmark.embed_texts rt g texts model
  = ([Network (EmbeddingsCreate
                 cl
                 (if truthy model then model
                  else EmbeddingBenchmark.EMBED_MODEL g)
                 texts (PInt (EmbeddingBenchmark.DEFAULT_TIMEOUT g)))],
     Raise e)
  /\ exn_class e = "TypeError"
  /\ isinstance e "EmbeddingError" = false.
Proof.
  intros Hcl Hne Hsdk Hdata Hiter. split.
  - destruct texts as [|t ts]; [contradiction|].
    unfold EmbeddingBenchmark.embed_texts. rewrite Hcl.
    unfold try_except. run_trace. rewrite Hsdk. run_trace.
    unfold EmbeddingBenchmark.extract_vectors. rewrite Hdata, Hiter.
    reflexivity.
  - destruct data; cbn in Hiter; try discriminate Hiter;
      injection Hiter as <-; split; reflexivity.
Qed.

Lemma benchmark_data_not_iterable_witness :
  let g := EmbeddingBenchmark.mkGlobals
             30 PNone (PStr "k") (PStr "text-embedding-3-small")
             (PStr "k") (PStr EmbeddingBenchmark.OPENROUTER_URL)
             (PStr "OPENROUTER")
             (Some (mkClient (PStr EmbeddingBenchmark.OPENROUTER_URL) (PStr "k"))) in
  let rt := sample_runtime (Return bare_response) (Return [("data", PNone)]) in
  EmbeddingBenchmark.embed_texts rt g ["first"] PNone
  = ([Network (EmbeddingsCreate
                 (mkClient (PStr EmbeddingBenchmark.OPENROUTER_URL) (PStr "k"))
                 (PStr "text-embedding-3-small") ["first"] (PInt 30))],
     Raise (TypeError "'NoneType' object is not iterable"))
  /\ exn_class (TypeError "'NoneType' object is not iterable") = "TypeError"
  /\ isinstance (TypeError "'NoneType' object is not iterable") "EmbeddingError"
     = false.
Proof.
  intros g rt.
  apply (benchmark_data_not_iterable rt g _ ["first"] PNone
                                     [("data", PNone)] PNone);
    [reflexivity | discriminate | reflexivity | reflexivity | reflexivity].
Defined.

(** * The run endpoint *)

Section EndpointProperties.

Variable S : Type.
Variable db : Main.crud S.
Variable int_of_str : string -> outcome Z.
Variable rt : runtime.
Variable g : globals.

(** X16.  A run that names a session the store does not know ends in a
    404 "session not found" right after the lookup: no message is
    written and the provider is not called. *)
Theorem llm_run_unknown_session (payload : pydict) (s s' : S) :
  truthy (field "session_id" payload) = true ->
  Main.get_session db s (field "session_id" payload) = (s', Return false) ->
  Main.llm_run S db int_of_str rt g payload s
  = ([Main.GetSession (field "session_id" payload)], s',
     Main.HTTPException 404 "session not found").
Proof.
  intros Hsid Hget.
  unfold Main.llm_run. rewrite Hsid.
  unfold Main.abind at 1. unfold Main.abind at 1.
  unfold Main.do_get_session. rewrite Hget. reflexivity.
Qed.

Lemma persist_user_message_events (session_id m : pyval) (s : S) :
  exists tr s' r,
    Main.persist_user_message S db rt session_id m s = (tr, s', r)
    /\ (tr = []
        \/ exists content,
            tr = [Main.CreateSessionMessage session_id "user" (PStr content)
                                            PNone]).
Proof.
  unfold Main.persist_user_message, Main.abind, Main.pure_step.
  destruct (py_get m "role" PNone) as [role|e]; cbn [Main.of_outcome];
    [|do 3 eexists; split; [reflexivity | left; reflexivity]].
  destruct (Main.is_user role);
    [|do 3 eexists; split; [reflexivity | left; reflexivity]].
  destruct (py_get m "content" PNone) as [c|e]; cbn [Main.of_outcome];
    [|do 3 eexists; split; [reflexivity | left; reflexivity]].
  destruct (Main.user_content_str rt c) as [content|e]; cbn [Main.of_outcome];
    [|do 3 eexists; split; [reflexivity | left; reflexivity]].
  unfold Main.do_create_session_message.
  destruct (Main.create_session_message db s session_id "user" (PStr content)
                                        PNone) as [s' [id|e]];
    cbn [Main.of_outcome Main.aret app];
    do 3 eexists; (split; [reflexivity | right; eexists; reflexivity]).
Qed.

(** The loop over the messages always completes, with at most one
    attempted write per message. *)
Lemma persist_user_messages_done
        (session_id : pyval) (ms : list pyval) (s : S) :
  exists tr s',
    Main.persist_user_messages S db rt session_id ms s = (tr, s', Main.Done tt)
    /\ (length tr <= length ms)%nat
    /\ Forall (fun ev =>
                 exists content,
                   ev = Main.CreateSessionMessage session_id "user"
                                                  (PStr content) PNone) tr.
Proof.
  revert s. induction ms as [|m ms IH]; intros s.
  - exists [], s. repeat split; [apply Nat.le_refl | constructor].
  - cbn [Main.persist_user_messages]. unfold Main.abind, Main.swallow.
    destruct (persist_user_message_events session_id m s)
      as (tr1 & s1 & r1 & -> & Hshape).
    destruct (IH s1) as (tr2 & s2 & -> & Hlen & Hall).
    eexists. eexists. split; [reflexivity|]. split.
    + rewrite length_app. cbn [length].
      destruct Hshape as [-> | [content ->]]; cbn [length]; lia.
    + apply Forall_app. split; [|exact Hall].
      destruct Hshape as [-> | [content ->]]; repeat constructor.
      now exists content.
Qed.

(** X17.  Storing the user messages never stops a run: whatever the
    messages look like and whatever the store answers, the loop
    completes normally.  It attempts at most one write per message, each
    of them a "user" row of the session with a string content and no
    model. *)
Theorem persist_user_messages_completes
        (session_id : pyval) (ms : list pyval) (s : S) :
  exists tr s',
    Main.persist_user_messages S db rt session_id ms s = (tr, s', Main.Done tt)
    /\ (length tr <= length ms)%nat
    /\ Forall (fun ev =>
                 exists content,
                   ev = Main.CreateSessionMessage session_id "user"
                                                  (PStr content) PNone) tr.
Proof.
  exact (persist_user_messages_done session_id ms s).
Qed.

Lemma py_join_sep_strings (sep : string) (vs : list pyval) (ss : list string)
      (i : nat) :
  strings_of vs = Some ss ->
  Main.py_join_sep_from sep i vs = Return (String.concat sep ss).
Proof.
  revert ss i. induction vs as [|v vs IH]; intros ss i H; cbn in H.
  - now injection H as <-.
  - destruct v; try discriminate.
    destruct (strings_of vs) as [ss'|] eqn:E; [|discriminate].
    injection H as <-. cbn [Main.py_join_sep_from].
    destruct vs as [|v' vs'].
    + cbn in E. injection E as <-. reflexivity.
    + rewrite (IH ss' (Datatypes.S i) eq_refl). cbn [obind].
      destruct ss' as [|s' ss'']; [|reflexivity].
      cbn in E. destruct v'; try discriminate.
      destruct (strings_of vs'); discriminate.
Qed.

(** X18.  For a user message whose content is a list of blocks with
    string parts, the text handed to the store is the parts joined by a
    single space (the gateway joins the blocks of a reply with no
    separator). *)
Theorem user_blocks_joined_by_space
        (session_id : pyval) (m : pydict) (blocks : list pyval)
        (ss : list string) (s : S) :
  dict_get "role" m = Some (PStr "user") ->
  dict_get "content" m = Some (PList blocks) ->
  strings_of (content_parts blocks) = Some ss ->
  fst (fst (Main.persist_user_message S db rt session_id (PDict m) s))
  = [Main.CreateSessionMessage session_id "user"
                               (PStr (String.concat " " ss)) PNone].
Proof.
  intros Hrole Hcontent Hparts.
  unfold Main.persist_user_message, Main.abind, Main.pure_step, py_get.
  rewrite Hrole, Hcontent. cbn [Main.of_outcome].
  change (Main.is_user (PStr "user")) with true. cbv iota.
  cbn [Main.user_content_str].
  rewrite (py_join_sep_strings " " _ ss 0 Hparts). cbn [Main.of_outcome].
  unfold Main.do_create_session_message.
  destruct (Main.create_session_message db s session_id "user"
                                        (PStr (String.concat " " ss)) PNone)
    as [s' [id|e]]; reflexivity.
Qed.

Lemma py_join_sep_other (sep : string) (vs : list pyval) (i : nat) :
  strings_of vs = None -> exists e, Main.py_join_sep_from sep i vs = Raise e.
Proof.
  revert i. induction vs as [|v vs IH]; intros i H; cbn in H; [discriminate|].
  destruct v; cbn [Main.py_join_sep_from]; try (eexists; reflexivity).
  destruct (strings_of vs) eqn:E; [discriminate|].
  destruct vs as [|v' vs']; [discriminate E|].
  destruct (IH (Datatypes.S i) eq_refl) as [e ->]. exists e. reflexivity.
Qed.

(** X24.  A user message whose blocks contribute a part that is not a
    string is not stored: the join fails before the store is called, the
    database state is untouched, and the loop goes on to the next
    message. *)
Theorem user_blocks_with_other_part_not_stored
        (session_id : pyval) (m : pydict) (blocks rest : list pyval) (s : S) :
  dict_get "role" m = Some (PStr "user") ->
  dict_get "content" m = Some (PList blocks) ->
  strings_of (content_parts blocks) = None ->
  Main.persist_user_messages S db rt session_id (PDict m :: rest) s
  = Main.persist_user_messages S db rt session_id rest s.
Proof.
  intros Hrole Hcontent Hparts.
  cbn [Main.persist_user_messages].
  unfold Main.abind at 1. unfold Main.swallow.
  unfold Main.persist_user_message, Main.abind, Main.pure_step, py_get.
  rewrite Hrole, Hcontent. cbn [Main.of_outcome].
  change (Main.is_user (PStr "user")) with true. cbv iota.
  cbn [Main.user_content_str].
  destruct (py_join_sep_other " " _ 0 Hparts) as [e ->].
  cbn [Main.of_outcome app].
  destruct (Main.persist_user_messages S db rt session_id rest s)
    as [[tr s'] r].
  reflexivity.
Qed.

(** X25.  A user message with no content, or a null one, is stored with
    the text "None". *)
Theorem user_message_without_content
        (session_id : pyval) (m : pydict) (s : S) :
  dict_get "role" m = Some (PStr "user") ->
  field "content" m = PNone ->
  fst (fst (Main.persist_user_message S db rt session_id (PDict m) s))
  = [Main.CreateSessionMessage session_id "user" (PStr "None") PNone].
Proof.
  intros Hrole Hcontent.
  unfold Main.persist_user_message, Main.abind, Main.pure_step, py_get.
  rewrite Hrole. fold (field "content" m). rewrite Hcontent.
  cbn [Main.of_outcome].
  change (Main.is_user (PStr "user")) with true. cbv iota.
  cbn [Main.user_content_str py_str py_repr Main.of_outcome].
  unfold Main.do_create_session_message.
  destruct (Main.create_session_message db s session_id "user"
                                        (PStr "None") PNone)
    as [s' [id|e]]; reflexivity.
Qed.

(** X19.  A run whose messages cannot be iterated (a number, a boolean)
    ends in an unhandled [TypeError] before any write and before the
    provider is called. *)
Theorem llm_run_messages_not_iterable (payload : pydict) (s : S) (e : exn) :
  truthy (field "session_id" payload) = false ->
  py_iter (Main.messages_of payload) = Raise e ->
  Main.llm_run S db int_of_str rt g payload s = ([], s, Main.Unhandled e).
Proof.
  intros Hsid Hiter.
  unfold Main.llm_run. rewrite Hsid, Hiter. reflexivity.
Qed.

(** What a run does once the session check has passed and the messages
    have been listed. *)
Lemma llm_run_with_session
      (payload : pydict) (s s1 : S) (items : list pyval) :
  truthy (field "session_id" payload) = true ->
  Main.get_session db s (field "session_id" payload) = (s1, Return true) ->
  py_iter (Main.messages_of payload) = Return items ->
  Main.llm_run S db int_of_str rt g payload s
  = match Main.abind
            (Main.persist_user_messages S db rt (field "session_id" payload) items)
            (fun _ =>
               Main.abind
                 (Main.call_provider S rt g (Main.messages_of payload)
                                     (Main.model_of g payload))
                 (Main.store_answer S db int_of_str
                                    (field "session_id" payload)
                                    (Main.model_of g payload))) s1 with
    | (tr, s', r) =>
        (Main.GetSession (field "session_id" payload) :: tr, s', r)
    end.
Proof.
  intros Hsid Hget Hiter.
  unfold Main.llm_run. rewrite Hsid, Hiter.
  unfold Main.abind at 1. unfold Main.abind at 1.
  unfold Main.do_get_session at 1. rewrite Hget.
  cbn [Main.of_outcome Main.aret app fst snd].
  unfold Main.abind at 1. cbn [Main.pure_step Main.of_outcome].
  match goal with
  | |- context [Main.abind ?c ?k s1] =>
      destruct (Main.abind c k s1) as [[tr s'] r]
  end.
  reflexivity.
Qed.

Lemma call_chat_completions_sdk_raises
      (messages model : pyval) (max_tokens : option Z) (temperature : Q)
      (extra_headers extra_body : option pydict) (e : exn) :
  chat_completions_create rt
    (create_request g messages model max_tokens temperature
                    extra_headers extra_body) = Raise e ->
  exists m,
    call_chat_completions rt g messages model max_tokens temperature
                          extra_headers extra_body
    = ([Network (create_request g messages model max_tokens temperature
                                extra_headers extra_body)],
       Raise (ProviderError m))
    /\ contains m (exn_msg e).
Proof.
  intros Hsdk.
  destruct (@provider_except_wraps pyval e) as (m & Hwrap & Hm).
  exists m. split; [|exact Hm].
  unfold call_chat_completions, try_except.
  run_trace. rewrite Hsdk. run_trace. rewrite Hwrap. reflexivity.
Qed.

(** X20.  When the provider call fails during a run, the endpoint ends
    in a 502 whose detail contains the provider's message.  The user
    messages have been handed to the store by then; no assistant message
    is written and no usage event is logged. *)
Theorem llm_run_provider_failure
        (payload : pydict) (s s1 : S) (items : list pyval) (e : exn) :
  truthy (field "session_id" payload) = true ->
  Main.get_session db s (field "session_id" payload) = (s1, Return true) ->
  py_iter (Main.messages_of payload) = Return items ->
  chat_completions_create rt
    (create_request g (Main.messages_of payload) (Main.model_of g payload)
                    None 0 None None) = Raise e ->
  exists tr_u s2 detail,
    Main.persist_user_messages S db rt (field "session_id" payload) items s1
    = (tr_u, s2, Main.Done tt)
    /\ Main.llm_run S db int_of_str rt g payload s
       = ((Main.GetSession (field "session_id" payload)
           :: tr_u
              ++ [Main.Gateway
                    (Network (create_request g (Main.messages_of payload)
                                             (Main.model_of g payload)
                                             None 0 None None))])%list,
          s2, Main.HTTPException 502 detail)
    /\ contains detail (exn_msg e).
Proof.
  intros Hsid Hget Hiter Hsdk.
  destruct (persist_user_messages_done (field "session_id" payload) items s1)
    as (tr_u & s2 & Hpersist & _).
  destruct (call_chat_completions_sdk_raises _ _ None 0 None None e Hsdk)
    as (m & Hcall & Hm).
  exists tr_u, s2, m. split; [exact Hpersist|]. split; [|exact Hm].
  rewrite (llm_run_with_session payload s s1 items Hsid Hget Hiter).
  unfold Main.abind at 1. rewrite Hpersist.
  unfold Main.abind at 1. unfold Main.call_provider. rewrite Hcall.
  reflexivity.
Qed.

Lemma call_raises_on_non_mapping_meta
      (messages model : pyval) (max_tokens : option Z) (temperature : Q)
      (extra_headers extra_body : option pydict) (d : pydict) (meta : pyval) :
  chat_completions_create rt
    (create_request g messages model max_tokens temperature
                    extra_headers extra_body) = Return (PDict d) ->
  truthy (field "usage" d) = false ->
  dict_get "meta" d = Some meta ->
  is_dict meta = false ->
  call_chat_completions rt g messages model max_tokens temperature
                        extra_headers extra_body
  = ([Network (create_request g messages model max_tokens temperature
                              extra_headers extra_body)],
     Raise (AttributeError (type_name meta) "get")).
Proof.
  intros Hsdk Husage Hmeta Hnot.
  destruct (extract_text_on_dict rt d) as [t Ht].
  apply (call_chat_completions_usage_raises _ _ _ _ _ _ _ _ _ t _ Hsdk Ht).
  unfold field in Husage. unfold extract_usage, py_or. unfold py_get at 1.
  assert (Htop : truthy match dict_get "usage" d with
                        | Some v => v
                        | None => PDict []
                        end = false).
  { destruct (dict_get "usage" d); [exact Husage | reflexivity]. }
  cbn [obind]. rewrite Htop.
  unfold py_get at 1. rewrite Hmeta. cbn [obind].
  destruct meta; try discriminate Hnot; reflexivity.
Qed.

(** X21.  An answer that the gateway cannot normalise is not turned
    into a 502: when the response has no usable top-level [usage] and a
    [meta] that is not a mapping, the gateway's [AttributeError] leaves
    the endpoint unhandled, after the provider was called and before
    anything about the answer is written. *)
Theorem llm_run_unhandled_gateway_error
        (payload : pydict) (s s1 : S) (items : list pyval)
        (d : pydict) (meta : pyval) :
  truthy (field "session_id" payload) = true ->
  Main.get_session db s (field "session_id" payload) = (s1, Return true) ->
  py_iter (Main.messages_of payload) = Return items ->
  chat_completions_create rt
    (create_request g (Main.messages_of payload) (Main.model_of g payload)
                    None 0 None None) = Return (PDict d) ->
  truthy (field "usage" d) = false ->
  dict_get "meta" d = Some meta ->
  is_dict meta = false ->
  exists tr_u s2,
    Main.persist_user_messages S db rt (field "session_id" payload) items s1
    = (tr_u, s2, Main.Done tt)
    /\ Main.llm_run S db int_of_str rt g payload s
       = ((Main.GetSession (field "session_id" payload)
           :: tr_u
              ++ [Main.Gateway
                    (Network (create_request g (Main.messages_of payload)
                                             (Main.model_of g payload)
                                             None 0 None None))])%list,
          s2, Main.Unhandled (AttributeError (type_name meta) "get")).
Proof.
  intros Hsid Hget Hiter Hsdk Husage Hmeta Hnot.
  destruct (persist_user_messages_done (field "session_id" payload) items s1)
    as (tr_u & s2 & Hpersist & _).
  exists tr_u, s2. split; [exact Hpersist|].
  rewrite (llm_run_with_session payload s s1 items Hsid Hget Hiter).
  unfold Main.abind at 1. rewrite Hpersist.
  unfold Main.abind at 1. unfold Main.call_provider.
  rewrite (call_raises_on_non_mapping_meta _ _ None 0 None None d meta
                                           Hsdk Husage Hmeta Hnot).
  reflexivity.
Qed.

(** X22.  A run that succeeds does its work in this order: the session
    lookup, the writes of the user messages, the provider call, the
    write of the assistant message with the returned text and the model,
    and the usage event with the token counts and the latency.  Its body
    holds the id of the assistant message, the text and the usage. *)
Theorem llm_run_success
        (payload : pydict) (s s1 s2 s3 s4 : S) (items : list pyval)
        (tr_u : list Main.app_event) (tr_g : list event)
        (out : completion) (assistant_id : string)
        (tokens_prompt tokens_response : Z) :
  truthy (field "session_id" payload) = true ->
  Main.get_session db s (field "session_id" payload) = (s1, Return true) ->
  py_iter (Main.messages_of payload) = Return items ->
  Main.persist_user_messages S db rt (field "session_id" payload) items s1
  = (tr_u, s2, Main.Done tt) ->
  call_chat_completions rt g (Main.messages_of payload) (Main.model_of g payload)
                        None 0 None None = (tr_g, Return out) ->
  Main.create_session_message db s2 (field "session_id" payload) "assistant"
                              (text out) (Main.model_of g payload)
  = (s3, Return assistant_id) ->
  Main.token_count int_of_str
                   (if truthy (usage out) then usage out else PDict [])
                   "prompt_tokens" "input_tokens" = Return tokens_prompt ->
  Main.token_count int_of_str
                   (if truthy (usage out) then usage out else PDict [])
                   "completion_tokens" "output_tokens" = Return tokens_response ->
  Main.log_usage_event db s3 assistant_id (Main.model_of g payload)
                       tokens_prompt tokens_response (latency_ms out)
  = (s4, Return tt) ->
  Main.llm_run S db int_of_str rt g payload s
  = ((Main.GetSession (field "session_id" payload)
      :: tr_u
         ++ map Main.Gateway tr_g
         ++ [Main.CreateSessionMessage (field "session_id" payload) "assistant"
                                       (text out) (Main.model_of g payload);
             Main.LogUsageEvent assistant_id (Main.model_of g payload)
                                tokens_prompt tokens_response
                                (latency_ms out)])%list,
     s4,
     Main.Done (PDict [("id", PStr assistant_id); ("content", text out);
                       ("usage", if truthy (usage out) then usage out
                                 else PDict [])])).
Proof.
  intros Hsid Hget Hiter Hpersist Hcall Hwrite Htp Htr Hlog.
  rewrite (llm_run_with_session payload s s1 items Hsid Hget Hiter).
  unfold Main.abind at 1. rewrite Hpersist.
  unfold Main.abind at 1. unfold Main.call_provider. rewrite Hcall.
  unfold Main.store_answer.
  unfold Main.abind at 1. unfold Main.do_create_session_message.
  rewrite Hwrite. cbn [Main.of_outcome].
  unfold Main.abind at 1. rewrite Htp. cbn [Main.pure_step Main.of_outcome].
  unfold Main.abind at 1. rewrite Htr. cbn [Main.pure_step Main.of_outcome].
  unfold Main.abind at 1. unfold Main.do_log_usage_event.
  rewrite Hlog. cbn [Main.of_outcome Main.aret app].
  rewrite ?app_nil_r. reflexivity.
Qed.

(** X23.  A token count is read from the first of its two fields unless
    that one is absent or zero, in which case it is read from the
    second; with both absent or zero it is 0. *)
Theorem token_count_prefers_first
        (u : pydict) (first second : string) (x y : Z) :
  match dict_get first u with Some v => v | None => PInt 0 end = PInt x ->
  match dict_get second u with Some v => v | None => PInt 0 end = PInt y ->
  Main.token_count int_of_str (PDict u) first second
  = Return (if Z.eqb x 0 then y else x).
Proof.
  intros Hx Hy. unfold Main.token_count, py_get, py_or.
  rewrite Hx. cbn [obind truthy].
  destruct (Z.eqb x 0) eqn:Ex; cbn [negb]; [|reflexivity].
  rewrite Hy. cbn [obind truthy].
  destruct (Z.eqb y 0) eqn:Ey; cbn [negb obind Main.py_int]; [|reflexivity].
  apply Z.eqb_eq in Ey. now subst y.
Qed.

End EndpointProperties.

Lemma llm_run_unknown_session_witness :
  Main.llm_run nat Main.sample_crud sample_int_of_str
               (sample_runtime (Return bare_response) (Return two_item_response))
               sample_globals
               [("session_id", PStr "not-found"); ("content", PStr "hi")] 0%nat
  = ([Main.GetSession (PStr "not-found")], 0%nat,
     Main.HTTPException 404 "session not found").
Proof.
  apply (llm_run_unknown_session
           nat Main.sample_crud sample_int_of_str
           (sample_runtime (Return bare_response) (Return two_item_response))
           sample_globals
           [("session_id", PStr "not-found"); ("content", PStr "hi")]
           0%nat 0%nat);
    reflexivity.
Defined.

Lemma user_blocks_joined_by_space_witness :
  fst (fst (Main.persist_user_message
              nat Main.sample_crud
              (sample_runtime (Return bare_response) (Return two_item_response))
              (PStr "s-1")
              (PDict [("role", PStr "user");
                      ("content", PList [PStr "a";
                                         PDict [("type", PStr "text");
                                                ("text", PStr "b")]])])
              0%nat))
  = [Main.CreateSessionMessage (PStr "s-1") "user" (PStr "a b") PNone].
Proof.
  apply (user_blocks_joined_by_space
           nat Main.sample_crud
           (sample_runtime (Return bare_response) (Return two_item_response))
           (PStr "s-1")
           [("role", PStr "user");
            ("content", PList [PStr "a";
                               PDict [("type", PStr "text"); ("text", PStr "b")]])]
           [PStr "a"; PDict [("type", PStr "text"); ("text", PStr "b")]]
           ["a"; "b"] 0%nat);
    reflexivity.
Defined.

Lemma llm_run_messages_not_iterable_witness :
  Main.llm_run nat Main.sample_crud sample_int_of_str
               (sample_runtime (Return bare_response) (Return two_item_response))
               sample_globals [("messages", PInt 3)] 0%nat
  = ([], 0%nat, Main.Unhandled (TypeError "'int' object is not iterable")).
Proof.
  apply (llm_run_messages_not_iterable
           nat Main.sample_crud sample_int_of_str
           (sample_runtime (Return bare_response) (Return two_item_response))
           sample_globals [("messages", PInt 3)] 0%nat);
    reflexivity.
Defined.

Lemma llm_run_provider_failure_witness :
  let payload := [("session_id", PStr "s-1"); ("content", PStr "hi")] in
  let rt := sample_runtime (Raise timeout_error) (Return two_item_response) in
  exists tr_u s2 detail,
    Main.persist_user_messages
      nat Main.sample_crud rt (PStr "s-1")
      [PDict [("role", PStr "user"); ("content", PStr "hi")]] 0%nat
    = (tr_u, s2, Main.Done tt)
    /\ Main.llm_run nat Main.sample_crud sample_int_of_str rt sample_globals
                    payload 0%nat
       = ((Main.GetSession (PStr "s-1")
           :: tr_u
              ++ [Main.Gateway
                    (Network (create_request
                                sample_globals
                                (PList [PDict [("role", PStr "user");
                                               ("content", PStr "hi")]])
                                (PStr "openai/chatgpt-4o-latest")
                                None 0 None None))])%list,
          s2, Main.HTTPException 502 detail)
    /\ contains detail "Request timed out.".
Proof.
  intros payload rt.
  apply (llm_run_provider_failure
           nat Main.sample_crud sample_int_of_str rt sample_globals
           payload 0%nat 0%nat
           [PDict [("role", PStr "user"); ("content", PStr "hi")]]
           timeout_error);
    reflexivity.
Defined.

Lemma llm_run_unhandled_gateway_error_witness :
  let payload := [("session_id", PStr "s-1"); ("content", PStr "hi")] in
  let raw := [("choices", PList [PDict [("text", PStr "hello")]]);
              ("meta", PNone)] in
  let rt := sample_runtime (Return (PDict raw)) (Return two_item_response) in
  exists tr_u s2,
    Main.persist_user_messages
      nat Main.sample_crud rt (PStr "s-1")
      [PDict [("role", PStr "user"); ("content", PStr "hi")]] 0%nat
    = (tr_u, s2, Main.Done tt)
    /\ Main.llm_run nat Main.sample_crud sample_int_of_str rt sample_globals
                    payload 0%nat
       = ((Main.GetSession (PStr "s-1")
           :: tr_u
              ++ [Main.Gateway
                    (Network (create_request
                                sample_globals
                                (PList [PDict [("role", PStr "user");
                                               ("content", PStr "hi")]])
                                (PStr "openai/chatgpt-4o-latest")
                                None 0 None None))])%list,
          s2, Main.Unhandled (AttributeError "NoneType" "get")).
Proof.
  intros payload raw rt.
  apply (llm_run_unhandled_gateway_error
           nat Main.sample_crud sample_int_of_str rt sample_globals
           payload 0%nat 0%nat
           [PDict [("role", PStr "user"); ("content", PStr "hi")]]
           raw PNone);
    reflexivity.
Defined.

Lemma llm_run_success_witness :
  let payload := [("session_id", PStr "s-1"); ("content", PStr "hi");
                  ("model", PStr "gpt-4o")] in
  let raw := PDict [("choices",
                     PList [PDict [("message",
                                    PDict [("content", PStr "hello")])]]);
                    ("usage", PDict [("prompt_tokens", PInt 3);
                                     ("output_tokens", PInt 4)])] in
  let rt := sample_runtime (Return raw) (Return two_item_response) in
  let messages := PList [PDict [("role", PStr "user"); ("content", PStr "hi")]] in
  Main.llm_run nat Main.sample_crud sample_int_of_str rt sample_globals
               payload 0%nat
  = ([Main.GetSession (PStr "s-1");
      Main.CreateSessionMessage (PStr "s-1") "user" (PStr "hi") PNone;
      Main.Gateway (Network (create_request sample_globals messages
                                            (PStr "gpt-4o") None 0 None None));
      Main.CreateSessionMessage (PStr "s-1") "assistant" (PStr "hello")
                                (PStr "gpt-4o");
      Main.LogUsageEvent "msg-1" (PStr "gpt-4o") 3 4 250],
     3%nat,
     Main.Done (PDict [("id", PStr "msg-1"); ("content", PStr "hello");
                       ("usage", PDict [("prompt_tokens", PInt 3);
                                        ("output_tokens", PInt 4)])])).
Proof.
  intros payload raw rt messages.
  apply (llm_run_success
           nat Main.sample_crud sample_int_of_str rt sample_globals
           payload 0%nat 0%nat 1%nat 2%nat 3%nat
           [PDict [("role", PStr "user"); ("content", PStr "hi")]]
           [Main.CreateSessionMessage (PStr "s-1") "user" (PStr "hi") PNone]
           [Network (create_request sample_globals messages (PStr "gpt-4o")
                                    None 0 None None)]
           (mkCompletion (PStr "hello")
                         (PDict [("prompt_tokens", PInt 3);
                                 ("output_tokens", PInt 4)])
                         250 raw)
           "msg-1" 3%Z 4%Z);
    reflexivity.
Defined.

Lemma token_count_prefers_first_witness :
  Main.token_count sample_int_of_str
                   (PDict [("prompt_tokens", PInt 0); ("input_tokens", PInt 9)])
                   "prompt_tokens" "input_tokens" = Return 9%Z
  /\ Main.token_count sample_int_of_str
                      (PDict [("prompt_tokens", PInt 5); ("input_tokens", PInt 9)])
                      "prompt_tokens" "input_tokens" = Return 5%Z.
Proof.
  split.
  - apply (token_count_prefers_first
             sample_int_of_str
             [("prompt_tokens", PInt 0); ("input_tokens", PInt 9)]
             "prompt_tokens" "input_tokens" 0%Z 9%Z);
      reflexivity.
  - apply (token_count_prefers_first
             sample_int_of_str
             [("prompt_tokens", PInt 5); ("input_tokens", PInt 9)]
             "prompt_tokens" "input_tokens" 5%Z 9%Z);
      reflexivity.
Defined.

Lemma user_blocks_with_other_part_not_stored_witness :
  let rt := sample_runtime (Return bare_response) (Return two_item_response) in
  Main.persist_user_messages
    nat Main.sample_crud rt (PStr "s-1")
    [PDict [("role", PStr "user");
            ("content", PList [PDict [("text", PInt 5)]])];
     PDict [("role", PStr "user"); ("content", PStr "hi")]] 0%nat
  = Main.persist_user_messages
      nat Main.sample_crud rt (PStr "s-1")
      [PDict [("role", PStr "user"); ("content", PStr "hi")]] 0%nat.
Proof.
  intros rt.
  apply (user_blocks_with_other_part_not_stored
           nat Main.sample_crud rt (PStr "s-1")
           [("role", PStr "user");
            ("content", PList [PDict [("text", PInt 5)]])]
           [PDict [("text", PInt 5)]]
           [PDict [("role", PStr "user"); ("content", PStr "hi")]] 0%nat);
    reflexivity.
Defined.

Lemma user_message_without_content_witness :
  fst (fst (Main.persist_user_message
              nat Main.sample_crud
              (sample_runtime (Return bare_response) (Return two_item_response))
              (PStr "s-1") (PDict [("role", PStr "user")]) 0%nat))
  = [Main.CreateSessionMessage (PStr "s-1") "user" (PStr "None") PNone].
Proof.
  apply (user_message_without_content
           nat Main.sample_crud
           (sample_runtime (Return bare_response) (Return two_item_response))
           (PStr "s-1") [("role", PStr "user")] 0%nat);
    reflexivity.
Defined.
